(** * httpbin.deno.dev: request introspection and route semantics

    A shallow embedding of [info.ts] (the flattener [toObject], the
    describer [basicInfo] and the body decoder [bodyInfo]) and of the
    route table and the trailing-slash middleware of the server module,
    together with the properties of the specification that they decide.

    Strings are [string]: a character stands for one code unit of a
    JavaScript string.  Header values and the result of [atob] are byte
    strings, which is what [string] holds; a path or query parameter with
    a code unit above 255 is outside the embedding. *)

From Stdlib Require Import String Ascii List NArith ZArith Lia Bool DecimalString.
From Stdlib Require DecimalFacts DecimalPos.
Import ListNotations.

Local Open Scope list_scope.
Local Open Scope string_scope.

(** ** The platform: values, completions, strings, header and query maps *)

Module JS.

(** A value that can be put in a response body and serialised as JSON.
    The fields of an object are kept in the order in which they were
    first assigned; that index-like keys are enumerated first is not
    modelled, the properties below are about the value under a key. *)
#[warnings="-register-all"]
Inductive JSON : Type :=
| JNull
| JBool (b : bool)
| JNum (n : Z)
| JStr (s : string)
| JArr (items : list JSON)
| JObj (fields : list (string * JSON)).

Definition Obj : Type := list (string * JSON).

(** [ret[key] = v] on a plain object: an existing field is overwritten in
    place, a new one is added last.  (Deno removes the [__proto__] accessor
    from [Object.prototype], so every key is an ordinary field.) *)
Fixpoint obj_set (key : string) (v : JSON) (o : Obj) : Obj :=
  match o with
  | [] => [(key, v)]
  | (k, w) :: rest =>
      if (k =? key)%string then (k, v) :: rest
      else (k, w) :: obj_set key v rest
  end.

(** The own field [key] of an object, [None] when there is none. *)
Fixpoint obj_get (key : string) (o : Obj) : option JSON :=
  match o with
  | [] => None
  | (k, w) :: rest => if (k =? key)%string then Some w else obj_get key rest
  end.

(** [{...a, ...b}]: the fields of [b] assigned over those of [a]. *)
Definition obj_spread (a b : Obj) : Obj :=
  fold_left (fun ret kv => obj_set (fst kv) (snd kv) ret) b a.

(** Truthiness of a string: every string but the empty one. *)
Definition truthy (s : string) : bool :=
  match s with
  | EmptyString => false
  | String _ _ => true
  end.

(** *** URLSearchParams: the list of name/value pairs of a query string *)

Definition URLSearchParams : Type := list (string * string).

(** [keys()] yields the name of every pair, repeated names included. *)
Definition usp_keys (p : URLSearchParams) : list string := map fst p.

(** [getAll(name)]: the values of the pairs named [name], in order. *)
Definition usp_getAll (name : string) (p : URLSearchParams) : list string :=
  map snd (filter (fun kv => (fst kv =? name)%string) p).

(** [get(name)]: the first value, [None] for [null]. *)
Definition usp_get (name : string) (p : URLSearchParams) : option string :=
  match usp_getAll name p with
  | [] => None
  | v :: _ => Some v
  end.

(** *** Headers: the header list, names stored in lower case *)

Definition Headers : Type := list (string * string).

Fixpoint insert_name (name : string) (sorted : list string) : list string :=
  match sorted with
  | [] => [name]
  | n :: rest =>
      if (n =? name)%string then sorted
      else if String.ltb name n then name :: sorted
      else n :: insert_name name rest
  end.

(** [keys()] iterates over the header names sorted and combined: each name
    once, in ascending order. *)
Definition headers_keys (h : Headers) : list string :=
  fold_right insert_name [] (map fst h).

Definition headers_values (name : string) (h : Headers) : list string :=
  map snd (filter (fun kv => (fst kv =? name)%string) h).

(** [get(name)]: [null] when no header has that name, otherwise all its
    values joined by a comma and a space. *)
Definition headers_get (name : string) (h : Headers) : option string :=
  match headers_values name h with
  | [] => None
  | vs => Some (String.concat ", " vs)
  end.

(** *** Completions: a computation returns a value or throws *)

Inductive Exn : Type :=
| InvalidCharacterError          (* the DOMException of [atob] *)
| Thrown (what : string).        (* any other thrown value or rejection *)

Inductive Completion (A : Type) : Type :=
| Normal (a : A)
| Throw (e : Exn).

Arguments Normal {A} a.
Arguments Throw {A} e.

Definition bind {A B : Type} (c : Completion A) (k : A -> Completion B)
  : Completion B :=
  match c with
  | Normal a => k a
  | Throw e => Throw e
  end.

(** [try { c } catch { handler }] *)
Definition try_catch {A : Type} (c : Completion A) (handler : Completion A)
  : Completion A :=
  match c with
  | Normal a => Normal a
  | Throw _ => handler
  end.

(** *** String methods *)

(** [s.startsWith(p)] *)
Definition startsWith (s p : string) : bool := String.prefix p s.

(** [s.endsWith(p)] *)
Definition endsWith (s p : string) : bool :=
  (String.length p <=? String.length s)%nat
  && (substring (String.length s - String.length p) (String.length p) s =? p)%string.

(** [s.split(sep)] for a separator of one character: the pieces between
    the occurrences of [sep]; never an empty list. *)
Fixpoint split (sep : ascii) (s : string) : list string :=
  match s with
  | EmptyString => [EmptyString]
  | String c rest =>
      if Ascii.eqb c sep then EmptyString :: split sep rest
      else match split sep rest with
           | [] => [String c EmptyString]
           | piece :: pieces => String c piece :: pieces
           end
  end.

(** *** atob: forgiving-base64 decode *)

Definition is_ascii_whitespace (c : ascii) : bool :=
  let n := N_of_ascii c in
  (n =? 9)%N || (n =? 10)%N || (n =? 12)%N || (n =? 13)%N || (n =? 32)%N.

(** The value of a character of the base64 alphabet. *)
Definition sextet (c : ascii) : option N :=
  let n := N_of_ascii c in
  if (65 <=? n)%N && (n <=? 90)%N then Some (n - 65)%N
  else if (97 <=? n)%N && (n <=? 122)%N then Some (n - 71)%N
  else if (48 <=? n)%N && (n <=? 57)%N then Some (n + 4)%N
  else if (n =? 43)%N then Some 62%N
  else if (n =? 47)%N then Some 63%N
  else None.

Fixpoint sextets (data : list ascii) : option (list N) :=
  match data with
  | [] => Some []
  | c :: rest =>
      match sextet c, sextets rest with
      | Some v, Some vs => Some (v :: vs)
      | _, _ => None
      end
  end.

(** With a length divisible by four, one or two trailing [=] are removed. *)
Definition strip_padding (data : list ascii) : list ascii :=
  if (Nat.modulo (List.length data) 4 =? 0)%nat then
    match rev data with
    | "="%char :: "="%char :: r => rev r
    | "="%char :: r => rev r
    | _ => data
    end
  else data.

Fixpoint decode_sextets (vs : list N) : list ascii :=
  match vs with
  | a :: b :: c :: d :: rest =>
      let n := N.lor (N.lor (N.shiftl a 18) (N.shiftl b 12))
                     (N.lor (N.shiftl c 6) d) in
      ascii_of_N (N.shiftr n 16)
        :: ascii_of_N (N.land (N.shiftr n 8) 255)
        :: ascii_of_N (N.land n 255)
        :: decode_sextets rest
  | [a; b; c] =>
      let n := N.shiftr (N.lor (N.lor (N.shiftl a 12) (N.shiftl b 6)) c) 2 in
      [ascii_of_N (N.shiftr n 8); ascii_of_N (N.land n 255)]
  | [a; b] =>
      [ascii_of_N (N.shiftr (N.lor (N.shiftl a 6) b) 4)]
  | _ => []
  end.

(** [atob(data)]: ASCII whitespace is dropped, padding stripped; a length
    of 1 modulo 4 or a character outside the alphabet throws an
    InvalidCharacterError; otherwise the decoded bytes, one character
    each. *)
Definition atob (data : string) : Completion string :=
  let chars :=
    strip_padding
      (filter (fun c => negb (is_ascii_whitespace c)) (list_ascii_of_string data)) in
  if (Nat.modulo (List.length chars) 4 =? 1)%nat then Throw InvalidCharacterError
  else match sextets chars with
       | Some vs => Normal (string_of_list_ascii (decode_sextets vs))
       | None => Throw InvalidCharacterError
       end.

(** *** btoa: base64 encode *)

(** The character of the base64 alphabet for a value below 64. *)
Definition base64_char (v : N) : ascii :=
  if (v <? 26)%N then ascii_of_N (v + 65)
  else if (v <? 52)%N then ascii_of_N (v + 71)
  else if (v <? 62)%N then ascii_of_N (v - 4)
  else if (v =? 62)%N then "+"%char
  else "/"%char.

(** Three bytes give four characters; a last group of one or two bytes is
    completed by zero bits and padded with [=]. *)
Fixpoint encode_bytes (bytes : list N) : list ascii :=
  match bytes with
  | a :: b :: c :: rest =>
      let n := N.lor (N.lor (N.shiftl a 16) (N.shiftl b 8)) c in
      base64_char (N.shiftr n 18)
        :: base64_char (N.land (N.shiftr n 12) 63)
        :: base64_char (N.land (N.shiftr n 6) 63)
        :: base64_char (N.land n 63)
        :: encode_bytes rest
  | [a; b] =>
      let n := N.lor (N.shiftl a 16) (N.shiftl b 8) in
      [base64_char (N.shiftr n 18);
       base64_char (N.land (N.shiftr n 12) 63);
       base64_char (N.land (N.shiftr n 6) 63);
       "="%char]
  | [a] =>
      let n := N.shiftl a 16 in
      [base64_char (N.shiftr n 18);
       base64_char (N.land (N.shiftr n 12) 63);
       "="%char; "="%char]
  | [] => []
  end.

(** [btoa(data)] for a string of bytes (on which it does not throw). *)
Definition btoa (data : string) : string :=
  string_of_list_ascii (encode_bytes (map N_of_ascii (list_ascii_of_string data))).

(** *** Numbers *)

(** The pattern [\d+]: one or more decimal digits. *)
Definition is_digit (c : ascii) : bool :=
  let n := N_of_ascii c in (48 <=? n)%N && (n <=? 57)%N.

Definition digits_only (s : string) : bool :=
  truthy s && forallb is_digit (list_ascii_of_string s).

(** The value in base ten of a string of decimal digits. *)
Definition decimal_value (s : string) : Z :=
  fold_left (fun acc c => (10 * acc + (Z.of_N (N_of_ascii c) - 48))%Z)
            (list_ascii_of_string s) 0%Z.

(** Numbers are binary64.  A number that is an integer is held as that
    integer: every integer up to [2^53] is a number, and above it the
    numbers are the [m * 2^e] with [2^52 <= m < 2^53].  [Infinity] is held
    as [2^1024], the first value past the largest number. *)
Definition MAX_SAFE : Z := (2 ^ 53)%Z.

Definition Infinity : Z := (2 ^ 1024)%Z.

(** The number for a natural number: the nearest one, the one with the
    even significand when two are as near, [Infinity] from [2^1024] on. *)
Definition round_binary64 (n : Z) : Z :=
  if (n <? MAX_SAFE)%Z then n
  else
    let e := (Z.log2 n - 52)%Z in
    let m := Z.shiftr n e in
    let rest := (n - Z.shiftl m e)%Z in
    let half := Z.shiftl 1 (e - 1) in
    let m' := if (half <? rest)%Z || ((rest =? half)%Z && Z.odd m)
              then (m + 1)%Z else m in
    let x := Z.shiftl m' e in
    if (Infinity <=? x)%Z then Infinity else x.

(** [+s] for a string of decimal digits: the number for its value.
    Strings that are not made of digits are not meant. *)
Definition ToNumber (s : string) : Z := round_binary64 (decimal_value s).

(** The decimal digits of an integer. *)
Definition decimal (n : Z) : string := NilZero.string_of_int (Z.to_int n).

(** The integer with the fewest significant digits that reads as the
    number [x]: for the largest power of ten [10^j] that has a multiple
    reading as [x], the multiple nearest to [x] among those that do (the
    even one when two are as near).  The search goes down from [j]. *)
Fixpoint shortest (x : Z) (j : nat) : Z :=
  let p := (10 ^ Z.of_nat j)%Z in
  let below := (x / p * p)%Z in
  let above := (below + p)%Z in
  let reads_below := (round_binary64 below =? x)%Z in
  let reads_above := (round_binary64 above =? x)%Z in
  let nearest :=
    if (x - below <? above - x)%Z then below
    else if (above - x <? x - below)%Z then above
    else if Z.even (x / p) then below else above in
  if reads_below && reads_above then nearest
  else if reads_below then below
  else if reads_above then above
  else match j with
       | O => x
       | S j' => shortest x j'
       end.

(** The digits of a text without the zeros at its end. *)
Fixpoint strip_zeros (digits : string) : string :=
  match digits with
  | EmptyString => EmptyString
  | String c rest =>
      match strip_zeros rest with
      | EmptyString => if Ascii.eqb c "0" then EmptyString else String c EmptyString
      | kept => String c kept
      end
  end.

(** The exponential form of an integer given by its digits: the first
    significant digit, a point and the other significant digits if there
    are any, then [e+] and the number of digits that follow the first. *)
Definition exponential (digits : string) : string :=
  match strip_zeros digits with
  | EmptyString => digits
  | String d EmptyString =>
      String d ("e+" ++ decimal (Z.of_nat (String.length digits) - 1))
  | String d rest =>
      String d ("." ++ rest ++ "e+"
                  ++ decimal (Z.of_nat (String.length digits) - 1))
  end.

(** The text of a number in a template literal, for a number that is an
    integer or [Infinity].  Up to [2^53] it is the decimal digits.  Above,
    it is the shortest decimal that reads as the number, written in full
    when it has at most 21 digits and in exponential form otherwise. *)
Definition Number_toString (x : Z) : string :=
  if (x <=? MAX_SAFE)%Z then decimal x
  else if (Infinity <=? x)%Z then "Infinity"
  else
    let digits := decimal (shortest x (String.length (decimal x))) in
    if (String.length digits <=? 21)%nat then digits else exponential digits.

(** [bytes.toString()] of a Uint8Array: the elements in decimal, joined
    by commas. *)
Definition Uint8Array_toString (bytes : list Byte.byte) : string :=
  String.concat ","
    (map (fun b => NilZero.string_of_uint (N.to_uint (Byte.to_N b))) bytes).

End JS.

Import JS.

Notation "x <- c ;; k" := (bind c (fun x => k))
  (at level 61, c at next level, right associativity).

(** ** The serving layer (oak): requests and responses *)

Module Oak.

(** What [read()] of a multipart reader gives: the fields, and the files
    when there are any. *)
Record FormDataBody : Type := mkFormDataBody {
  fields : Obj;
  files : option (list JSON)
}.

(** The result of [req.body()]: a type tag and a value still to be
    awaited.  Awaiting gives the value or throws. *)
Inductive Body : Type :=
| BodyJson (value : Completion JSON)
| BodyFormData (read : Completion FormDataBody)
| BodyForm (value : Completion URLSearchParams)
| BodyText (value : Completion string)
| BodyBytes (value : Completion (list Byte.byte))
| BodyUndefined.

Definition body_type (body : Body) : string :=
  match body with
  | BodyJson _ => "json"
  | BodyFormData _ => "form-data"
  | BodyForm _ => "form"
  | BodyText _ => "text"
  | BodyBytes _ => "bytes"
  | BodyUndefined => "undefined"
  end.

Record URL : Type := mkURL {
  href : string;                      (* [url.toString()] *)
  pathname : string;
  searchParams : URLSearchParams
}.

Record Request : Type := mkRequest {
  req_ip : string;
  req_url : URL;
  req_headers : Headers;
  req_body : Completion Body          (* [req.body()] may itself throw *)
}.

(** A response under construction: the status when one was assigned, the
    body when one was assigned ([Some JNull] for [null]), the headers. *)
Record Response : Type := mkResponse {
  res_status : option Z;
  res_body : option JSON;
  res_headers : list (string * string)
}.

Definition fresh : Response := mkResponse None None [].

Definition set_status (s : Z) (r : Response) : Response :=
  mkResponse (Some s) (res_body r) (res_headers r).

Definition set_body (b : JSON) (r : Response) : Response :=
  mkResponse (res_status r) (Some b) (res_headers r).

(** [headers.set(name, value)]: the header replaces any of the same name. *)
Definition set_header (name value : string) (r : Response) : Response :=
  mkResponse (res_status r) (res_body r)
    ((name, value)
       :: filter (fun kv => negb (fst kv =? name)%string) (res_headers r)).

Definition get_header (name : string) (r : Response) : option string :=
  match filter (fun kv => (fst kv =? name)%string) (res_headers r) with
  | [] => None
  | kv :: _ => Some (snd kv)
  end.

(** Modelled from the spec: the status getter of the serving layer's
    response is not part of the repository.  An assigned status is sent as
    it is; without one, a response with a body is a 200 (section 4.4: the
    echo routes assign no status and answer 200).  For a response without
    content the layer's own defaults are taken: 204 when the body is
    [null], 404 when no body was assigned. *)
Definition status (r : Response) : Z :=
  match res_status r with
  | Some s => s
  | None =>
      match res_body r with
      | None => 404
      | Some JNull => 204
      | Some _ => 200
      end
  end.

Definition Found : Z := 302.

Definition isRedirectStatus (s : Z) : bool :=
  existsb (Z.eqb s) [300; 301; 302; 303; 305; 307; 308]%Z.

(** Modelled from the spec: [Response.redirect] of the serving layer is not
    part of the repository.  Section 4.4: the [Location] header is the
    target as given, a redirect status already assigned is kept and
    otherwise the layer's default [Found] is used, and the response gets no
    JSON body. *)
Definition redirect (url : string) (r : Response) : Response :=
  let r := set_header "location" url r in
  if isRedirectStatus (status r) then r else set_status Found r.

End Oak.

Import Oak.

(** ** info.ts *)

(** The argument of [toObject] is a [Headers | URLSearchParams]. *)
Inductive Original : Type :=
| OfHeaders (h : Headers)
| OfParams (p : URLSearchParams).

(** [values.length === 1 ? values[0] : values] *)
Definition scalar_or_array (values : list string) : JSON :=
  match values with
  | [v] => JStr v
  | _ => JArr (map JStr values)
  end.

Definition toObject (original : Original) : Obj :=
  match original with
  | OfHeaders h =>
      fold_left
        (fun ret key =>
           match headers_get key h with
           | Some value => if truthy value then obj_set key (JStr value) ret else ret
           | None => ret
           end)
        (headers_keys h) []
  | OfParams p =>
      fold_left
        (fun ret key => obj_set key (scalar_or_array (usp_getAll key p)) ret)
        (usp_keys p) []
  end.

Definition basicInfo (req : Request) : Obj :=
  [ ("origin", JStr (req_ip req));
    ("url", JStr (href (req_url req)));
    ("searchParams", JObj (toObject (OfParams (searchParams (req_url req)))));
    ("headers", JObj (toObject (OfHeaders (req_headers req)))) ].

(** [{ body: { type, value } }] *)
Definition body_of (type : string) (value : JSON) : Obj :=
  [ ("body", JObj [ ("type", JStr type); ("value", value) ]) ].

(** [formData.files ?? null] *)
Definition files_or_null (formData : FormDataBody) : JSON :=
  match files formData with
  | Some fs => JArr fs
  | None => JNull
  end.

(** The block under [try] in [bodyInfo]. *)
Definition bodyInfo_try (req : Request) : Completion Obj :=
  body <- req_body req ;;
  match body with
  | BodyJson value =>
      v <- value ;;
      Normal (body_of (body_type body) v)
  | BodyFormData read =>
      formData <- read ;;
      Normal (body_of (body_type body)
                (JObj [ ("fields", JObj (fields formData));
                        ("files", files_or_null formData) ]))
  | BodyForm value =>
      p <- value ;;
      Normal (body_of (body_type body) (JObj (toObject (OfParams p))))
  | BodyText value =>
      t <- value ;;
      Normal (body_of (body_type body) (JStr t))
  | BodyBytes value =>
      bytes <- value ;;
      Normal (body_of (body_type body) (JStr (Uint8Array_toString bytes)))
  | BodyUndefined =>
      Normal (body_of (body_type body) JNull)
  end.

Definition bodyInfo (req : Request) : Completion Obj :=
  try_catch (bodyInfo_try req) (Normal (body_of "error" JNull)).

(** ** The server module: route handlers and middleware *)

(** A handler reads the request and updates the response of its context. *)
Definition Handler : Type := Request -> Response -> Completion Response.

(** [router.get('/get')] *)
Definition get_get : Handler :=
  fun req resp => Normal (set_body (JObj (basicInfo req)) resp).

(** [router.post('/post')]; the handlers of [/put], [/patch] and [/delete]
    have the same body. *)
Definition post_post : Handler :=
  fun req resp =>
    info <- bodyInfo req ;;
    Normal (set_body (JObj (obj_spread (basicInfo req) info)) resp).

Definition put_put : Handler := post_post.
Definition patch_patch : Handler := post_post.
Definition delete_delete : Handler := post_post.

Definition dquote : string := String "034"%char EmptyString.

(** The text [Basic realm="blah"]. *)
Definition basic_challenge : string := "Basic realm=" ++ dquote ++ "blah" ++ dquote.

Definition basic_unauthorized (resp : Response) : Response :=
  set_body (JObj [ ("authorized", JBool false); ("username", JNull) ])
    (set_status 401 (set_header "www-authenticate" basic_challenge resp)).

(** [router.get('/auth/basic/:username/:password')] *)
Definition get_auth_basic (username password : string) : Handler :=
  fun req resp =>
    match headers_get "authorization" (req_headers req) with
    | Some authHeader =>
        if truthy authHeader && startsWith authHeader "Basic" then
          match split " " authHeader with
          | [scheme; credentials] =>
              if (scheme =? "Basic")%string then
                decoded <- atob credentials ;;
                match split ":" decoded with
                | [u; p] =>
                    if (u =? username)%string && (p =? password)%string then
                      Normal (set_body
                                (JObj [ ("authorized", JBool true);
                                        ("username", JStr username) ])
                                (set_status 200 resp))
                    else Normal (basic_unauthorized resp)
                | _ => Normal (basic_unauthorized resp)
                end
              else Normal (basic_unauthorized resp)
          | _ => Normal (basic_unauthorized resp)
          end
        else Normal (basic_unauthorized resp)
    | None => Normal (basic_unauthorized resp)
    end.

Definition bearer_unauthorized (resp : Response) : Response :=
  set_body (JObj [ ("authorized", JBool false); ("token", JNull) ])
    (set_status 401 (set_header "www-authenticate" "Bearer" resp)).

(** [router.get('/auth/bearer')] *)
Definition get_auth_bearer : Handler :=
  fun req resp =>
    match headers_get "authorization" (req_headers req) with
    | Some authHeader =>
        if truthy authHeader && startsWith authHeader "Bearer" then
          match split " " authHeader with
          | [scheme; token] =>
              if (scheme =? "Bearer")%string then
                Normal (set_body
                          (JObj [ ("authorized", JBool true);
                                  ("token", JStr token) ])
                          (set_status 200 resp))
              else Normal (bearer_unauthorized resp)
          | _ => Normal (bearer_unauthorized resp)
          end
        else Normal (bearer_unauthorized resp)
    | None => Normal (bearer_unauthorized resp)
    end.

(** [{ error: message }] *)
Definition error_body (message : string) : JSON :=
  JObj [ ("error", JStr message) ].

(** The unary plus on a string never throws. *)
Definition unary_plus (s : string) : Completion Z := Normal (ToNumber s).

(** The handler of [router.all('/status/:code(\\d+)')] on the completion
    of the conversion under [try]: the [catch] branch when it threw, the
    range test on the number otherwise. *)
Definition all_status_on (converted : Completion Z) : Handler :=
  fun _ resp =>
    match converted with
    | Throw _ =>
        Normal (set_body (error_body "status code is not a number")
                  (set_status 400 resp))
    | Normal statusCode =>
        if (statusCode <? 200)%Z || (statusCode >? 599)%Z then
          Normal (set_body
                    (error_body ("status code " ++ Number_toString statusCode
                                   ++ " is outside the range [200, 599]"))
                    (set_status 400 resp))
        else Normal (set_body JNull (set_status statusCode resp))
    end.

(** The handler, given the value of the parameter [code]. *)
Definition all_status (code : string) : Handler :=
  all_status_on (unary_plus code).

(** The route [/status/:code(\\d+)] on the path segment after [/status/]:
    the router calls the handler when the segment matches the pattern of
    the parameter; otherwise no route of the table matches and the response
    is left as it was. *)
Definition status_route (segment : string) : Handler :=
  fun req resp =>
    if digits_only segment then all_status segment req resp
    else Normal resp.

(** [permanent === '1' || permanent === 'true'] *)
Definition is_permanent (permanent : option string) : bool :=
  match permanent with
  | Some s => (s =? "1")%string || (s =? "true")%string
  | None => false
  end.

Definition missing_to (resp : Response) : Response :=
  set_body (error_body "provide a `to` link in the URL") (set_status 400 resp).

(** [router.get('/redirect')]; [!to] holds of [null] and of the empty
    string. *)
Definition get_redirect : Handler :=
  fun req resp =>
    let params := searchParams (req_url req) in
    let to := usp_get "to" params in
    let permanent := usp_get "permanent" params in
    match to with
    | None => Normal (missing_to resp)
    | Some target =>
        if negb (truthy target) then Normal (missing_to resp)
        else
          let resp := if is_permanent permanent then set_status 301 resp else resp in
          Normal (redirect target resp)
    end.

(** A middleware gets the rest of the chain as [next]. *)
Definition Middleware : Type := Handler -> Handler.

(** Remove trailing slashes *)
Definition trailing_slash : Middleware :=
  fun next req resp =>
    let originalUrl := pathname (req_url req) in
    if negb (originalUrl =? "/")%string && endsWith originalUrl "/" then
      Normal (redirect (substring 0 (String.length originalUrl - 1) originalUrl)
                (set_status 301 resp))
    else next req resp.

(** [router.get('/ip')] *)
Definition get_ip : Handler :=
  fun req resp => Normal (set_body (JObj [ ("origin", JStr (req_ip req)) ]) resp).

(** [headers.get('user-agent') ?? null] *)
Definition or_null (v : option string) : JSON :=
  match v with
  | Some s => JStr s
  | None => JNull
  end.

(** [router.get('/user-agent')] *)
Definition get_user_agent : Handler :=
  fun req resp =>
    Normal (set_body
              (JObj [ ("user-agent",
                       or_null (headers_get "user-agent" (req_headers req))) ])
              resp).

(** [router.get('/headers')] *)
Definition get_headers : Handler :=
  fun req resp =>
    Normal (set_body
              (JObj [ ("headers", JObj (toObject (OfHeaders (req_headers req)))) ])
              resp).

(** Performance timing.  [elapsed] is the text [ms.toFixed(2)] of the time
    the rest of the chain took, read off the clock once [next] is back. *)
Definition timing (elapsed : string) : Middleware :=
  fun next req resp =>
    r <- next req resp ;;
    Normal (set_header "x-response-time" (elapsed ++ "ms") r).

(** The chain of [app.use]: trailing slashes, timing, then the router. *)
Definition app (elapsed : string) (routes : Handler) : Handler :=
  trailing_slash (timing elapsed routes).

(** ** Vocabulary of the statements *)

Definition nonempty {A : Type} (l : list A) : bool :=
  match l with
  | [] => false
  | _ :: _ => true
  end.

(** All the values an input of [toObject] holds under a key, in order. *)
Definition all_values (original : Original) (key : string) : list string :=
  match original with
  | OfHeaders h => headers_values key h
  | OfParams p => usp_getAll key p
  end.

(** Re-expanding a flattened entry: a scalar is one value, an array is its
    elements, a missing entry is no value. *)
Definition expand (entry : option JSON) : list string :=
  match entry with
  | Some (JStr s) => [s]
  | Some (JArr items) =>
      flat_map (fun j => match j with JStr s => [s] | _ => [] end) items
  | _ => []
  end.

(** The flattening rule in the words of the specification: one value gives
    the scalar, two or more give the sequence in order, and re-expanding
    recovers the values. *)
Definition flattened_as_specified (original : Original) : Prop :=
  forall key : string,
    (forall v, all_values original key = [v] ->
               obj_get key (toObject original) = Some (JStr v))
    /\ (forall vs, (2 <= List.length vs)%nat -> all_values original key = vs ->
                   obj_get key (toObject original) = Some (JArr (map JStr vs)))
    /\ expand (obj_get key (toObject original)) = all_values original key.

(** The entry [toObject] keeps for a header name: the combined value when
    it is truthy, nothing otherwise. *)
Definition header_entry (h : Headers) (key : string) : option JSON :=
  match headers_get key h with
  | Some value => if truthy value then Some (JStr value) else None
  | None => None
  end.

(** [c] occurs in [s]. *)
Fixpoint has_char (c : ascii) (s : string) : bool :=
  match s with
  | EmptyString => false
  | String x rest => Ascii.eqb x c || has_char c rest
  end.

(** A request that carries the given headers and nothing else of note. *)
Definition request_with_headers (h : Headers) : Request :=
  mkRequest "127.0.0.1" (mkURL "http://localhost:3000/" "/" []) h
    (Normal BodyUndefined).

(** A request for the given path and query string. *)
Definition request_for (path : string) (query : URLSearchParams) : Request :=
  mkRequest "127.0.0.1" (mkURL ("http://localhost:3000" ++ path) path query) []
    (Normal BodyUndefined).

(** Detecting or decoding the body of a request fails with [e]: [req.body()]
    throws, or awaiting the value of the body it returned does. *)
Definition body_fails (req : Request) (e : Exn) : Prop :=
  req_body req = Throw e
  \/ req_body req = Normal (BodyJson (Throw e))
  \/ req_body req = Normal (BodyFormData (Throw e))
  \/ req_body req = Normal (BodyForm (Throw e))
  \/ req_body req = Normal (BodyText (Throw e))
  \/ req_body req = Normal (BodyBytes (Throw e)).

(** The sentinel [{ type: 'error', value: null }]. *)
Definition error_sentinel : JSON :=
  JObj [("type", JStr "error"); ("value", JNull)].

(** The field [body] of the object a response carries. *)
Definition embedded_body (r : Response) : option JSON :=
  match res_body r with
  | Some (JObj fields) => obj_get "body" fields
  | _ => None
  end.

(** The out-of-range answer for a number. *)
Definition outside_range (n : Z) : JSON :=
  error_body ("status code " ++ Number_toString n
                ++ " is outside the range [200, 599]").

(** The decimal text of [n] is a digit string that reads back as [n]. *)
Definition reads_back (n : nat) : bool :=
  digits_only (Number_toString (Z.of_nat n))
  && (ToNumber (Number_toString (Z.of_nat n)) =? Z.of_nat n)%Z.

(** The answer of the Basic route that grants access. *)
Definition basic_authorized (username : string) (resp : Response) : Response :=
  set_body (JObj [("authorized", JBool true); ("username", JStr username)])
    (set_status 200 resp).

(** The header of a request is the scheme [Basic], one space and one
    token without spaces. *)
Definition basic_token (req : Request) (credentials : string) : Prop :=
  headers_get "authorization" (req_headers req) = Some ("Basic " ++ credentials)
  /\ has_char " " credentials = false.

(** [k] zeros. *)
Fixpoint zeros (k : nat) : string :=
  match k with
  | O => EmptyString
  | S k' => String "0" (zeros k')
  end.

(** [k] slashes. *)
Fixpoint slashes (k : nat) : string :=
  match k with
  | O => EmptyString
  | S k' => String "/" (slashes k')
  end.

(** The target the trailing-slash middleware redirects a path to, [None]
    when it hands the request to the rest of the chain. *)
Definition slash_redirect (path : string) : option string :=
  match trailing_slash (fun _ _ => Throw (Thrown "next")) (request_for path []) fresh with
  | Normal r => get_header "location" r
  | Throw _ => None
  end.

(** A redirect target is a path of the same server when it begins with one
    slash.  One that begins with two is a network-path reference: what
    follows the slashes names a host, and the client leaves the server. *)
Definition same_server (target : string) : bool :=
  startsWith target "/" && negb (startsWith target "//").

(** The path a client ends at when it follows the redirects of the
    middleware, at most [fuel] of them, asking the server again for each
    target that is a path of the same server; [None] when a target is not
    one. *)
Fixpoint follow (fuel : nat) (path : string) : option string :=
  match fuel with
  | O => Some path
  | S fuel' =>
      match slash_redirect path with
      | Some target =>
          if same_server target then follow fuel' target else None
      | None => Some path
      end
  end.

(** A request whose query string is the given list of pairs. *)
Definition has_query (req : Request) (query : URLSearchParams) : Prop :=
  searchParams (req_url req) = query.

(** No pair of a query string has the given name. *)
Definition lacks (name : string) (query : URLSearchParams) : Prop :=
  Forall (fun kv => fst kv <> name) query.

(** A field of the object a response carries as its body. *)
Definition response_field (key : string) (r : Response) : option JSON :=
  match res_body r with
  | Some (JObj fields) => obj_get key fields
  | _ => None
  end.



(** The sextets [encode_bytes] turns bytes into, before they are written as
    characters. *)
Fixpoint sextet_values (bytes : list N) : list N :=
  match bytes with
  | a :: b :: c :: rest =>
      let n := N.lor (N.lor (N.shiftl a 16) (N.shiftl b 8)) c in
      N.shiftr n 18 :: N.land (N.shiftr n 12) 63 :: N.land (N.shiftr n 6) 63
        :: N.land n 63 :: sextet_values rest
  | [a; b] =>
      let n := N.lor (N.shiftl a 16) (N.shiftl b 8) in
      [N.shiftr n 18; N.land (N.shiftr n 12) 63; N.land (N.shiftr n 6) 63]
  | [a] =>
      let n := N.shiftl a 16 in
      [N.shiftr n 18; N.land (N.shiftr n 12) 63]
  | [] => []
  end.

(** The padding [encode_bytes] ends with. *)
Fixpoint padding (bytes : list N) : list ascii :=
  match bytes with
  | _ :: _ :: _ :: rest => padding rest
  | [_; _] => ["="%char]
  | [_] => ["="%char; "="%char]
  | [] => []
  end.

Definition is_byte (n : N) : Prop := (n < 256)%N.

(** * Properties *)

(** ** Objects *)

Lemma obj_get_set_same (key : string) (v : JSON) (o : Obj) :
  obj_get key (obj_set key v o) = Some v.
Proof.
  induction o as [|[k w] rest IH]; simpl.
  - now rewrite String.eqb_refl.
  - destruct (String.eqb k key) eqn:E; simpl; rewrite E; auto.
Qed.

Lemma obj_get_set_other (key key' : string) (v : JSON) (o : Obj) :
  key <> key' -> obj_get key' (obj_set key v o) = obj_get key' o.
Proof.
  intros Hne. induction o as [|[k w] rest IH]; simpl.
  - destruct (String.eqb_spec key key'); congruence.
  - destruct (String.eqb_spec k key) as [->|Hk]; simpl.
    + destruct (String.eqb_spec key key'); congruence.
    + destruct (String.eqb_spec k key'); auto.
Qed.

(** ** The flattener *)

Lemma existsb_insert_name (key name : string) (sorted : list string) :
  existsb (String.eqb key) (insert_name name sorted) =
  (key =? name)%string || existsb (String.eqb key) sorted.
Proof.
  induction sorted as [|n rest IH]; simpl; auto.
  destruct (String.eqb_spec n name) as [->|Hn]; simpl.
  - now destruct (key =? name)%string.
  - destruct (String.ltb name n); simpl; auto.
    rewrite IH. now destruct (key =? n)%string, (key =? name)%string.
Qed.

Lemma headers_keys_mem (key : string) (h : Headers) :
  existsb (String.eqb key) (headers_keys h) = nonempty (headers_values key h).
Proof.
  unfold headers_keys, headers_values.
  induction h as [|[k v] h IH]; simpl; auto.
  rewrite existsb_insert_name, IH, (String.eqb_sym key k).
  now destruct (k =? key)%string.
Qed.

Lemma usp_keys_mem (key : string) (p : URLSearchParams) :
  existsb (String.eqb key) (usp_keys p) = nonempty (usp_getAll key p).
Proof.
  unfold usp_keys, usp_getAll.
  induction p as [|[k v] p IH]; simpl; auto.
  rewrite IH, (String.eqb_sym key k).
  now destruct (k =? key)%string.
Qed.

Section HeadersLoop.

Variable h : Headers.

Lemma headers_loop_lookup (key : string) (keys : list string) (ret : Obj) :
  obj_get key
    (fold_left
       (fun ret key =>
          match headers_get key h with
          | Some value => if truthy value then obj_set key (JStr value) ret else ret
          | None => ret
          end) keys ret) =
  match header_entry h key with
  | Some v => if existsb (String.eqb key) keys then Some v else obj_get key ret
  | None => obj_get key ret
  end.
Proof.
  unfold header_entry.
  revert ret. induction keys as [|k keys IH]; intros ret; simpl.
  - now destruct (headers_get key h) as [v|]; [destruct (truthy v)|].
  - rewrite IH. destruct (String.eqb_spec key k) as [->|Hne]; simpl.
    + destruct (headers_get k h) as [v|]; auto.
      destruct (truthy v); auto.
      rewrite obj_get_set_same. now destruct (existsb _ keys).
    + assert (Hother : forall v, obj_get key (obj_set k v ret) = obj_get key ret)
        by (intros v; apply obj_get_set_other; congruence).
      destruct (headers_get k h) as [w|]; [destruct (truthy w)|];
        try rewrite Hother; reflexivity.
Qed.

End HeadersLoop.

Section ParamsLoop.

Variable p : URLSearchParams.

Lemma params_loop_lookup (key : string) (keys : list string) (ret : Obj) :
  obj_get key
    (fold_left
       (fun ret key => obj_set key (scalar_or_array (usp_getAll key p)) ret)
       keys ret) =
  if existsb (String.eqb key) keys
  then Some (scalar_or_array (usp_getAll key p))
  else obj_get key ret.
Proof.
  revert ret. induction keys as [|k keys IH]; intros ret; simpl; auto.
  rewrite IH. destruct (String.eqb_spec key k) as [->|Hne]; simpl.
  - rewrite obj_get_set_same. now destruct (existsb _ keys).
  - rewrite obj_get_set_other by congruence. reflexivity.
Qed.

End ParamsLoop.

(** What [toObject] holds under a key of a query string: nothing when the
    key does not occur, otherwise its values as a scalar or an array. *)
Lemma toObject_params_lookup (p : URLSearchParams) (key : string) :
  obj_get key (toObject (OfParams p)) =
  if nonempty (usp_getAll key p)
  then Some (scalar_or_array (usp_getAll key p))
  else None.
Proof.
  unfold toObject. rewrite params_loop_lookup, usp_keys_mem. reflexivity.
Qed.

(** What [toObject] holds under a header name: its combined value when
    that is not empty. *)
Lemma toObject_headers_lookup (h : Headers) (key : string) :
  obj_get key (toObject (OfHeaders h)) = header_entry h key.
Proof.
  unfold toObject. rewrite headers_loop_lookup, headers_keys_mem.
  unfold header_entry, headers_get.
  destruct (headers_values key h) as [|v vs]; simpl; auto.
  now destruct (truthy _).
Qed.

Lemma expand_scalar_or_array (values : list string) :
  expand (Some (scalar_or_array values)) = values.
Proof.
  assert (Harr : forall l, flat_map
            (fun j => match j with JStr s => [s] | _ => [] end) (map JStr l) = l).
  { induction l as [|x l IH]; simpl; congruence. }
  destruct values as [|v [|w rest]]; simpl; auto.
  now rewrite Harr.
Qed.

(** C7. For every query string, [toObject] maps a key with exactly one
    value to that scalar (the empty string included: nothing is dropped for
    being falsy) and a key with several values to the sequence of its
    values in order; a key that does not occur has no entry, and the empty
    input gives the empty map.  [toObject] is a function of its argument
    alone and always returns. *)
Theorem toObject_query_parameters (p : URLSearchParams) (key : string) :
  (forall v, usp_getAll key p = [v] ->
             obj_get key (toObject (OfParams p)) = Some (JStr v))
  /\ (usp_getAll key p = [EmptyString] ->
      obj_get key (toObject (OfParams p)) = Some (JStr EmptyString))
  /\ (forall vs, (2 <= List.length vs)%nat -> usp_getAll key p = vs ->
                 obj_get key (toObject (OfParams p)) = Some (JArr (map JStr vs)))
  /\ (usp_getAll key p = [] -> obj_get key (toObject (OfParams p)) = None)
  /\ toObject (OfParams []) = [].
Proof.
  rewrite toObject_params_lookup.
  repeat split.
  - intros v ->. reflexivity.
  - intros ->. reflexivity.
  - intros vs Hlen ->. destruct vs as [|a [|b vs]]; simpl in *; auto; lia.
  - intros ->. reflexivity.
Qed.

Lemma toObject_query_parameters_witness :
  usp_getAll "a" [("a", "1"); ("b", EmptyString); ("a", "2")] = ["1"; "2"]
  /\ obj_get "a" (toObject (OfParams [("a", "1"); ("b", EmptyString); ("a", "2")]))
     = Some (JArr [JStr "1"; JStr "2"])
  /\ obj_get "b" (toObject (OfParams [("a", "1"); ("b", EmptyString); ("a", "2")]))
     = Some (JStr EmptyString).
Proof.
  split; [reflexivity|]. split.
  - apply (proj1 (proj2 (proj2
      (toObject_query_parameters [("a", "1"); ("b", EmptyString); ("a", "2")] "a")))
      ["1"; "2"]); [simpl; lia | reflexivity].
  - apply (proj1 (proj2
      (toObject_query_parameters [("a", "1"); ("b", EmptyString); ("a", "2")] "b")));
      reflexivity.
Defined.

(** C2, as the code has it.  For a query string the rule holds: one value
    gives the scalar, two or more give the sequence in order, no entry is
    [null], and re-expanding an entry recovers the values of its key.  For
    headers every entry is one string: a name is mapped to all its values
    joined by a comma and a space, and a name whose joined value is empty
    has no entry. *)
Theorem toObject_flattening (key : string) :
  (forall p : URLSearchParams,
      (forall v, usp_getAll key p = [v] ->
                 obj_get key (toObject (OfParams p)) = Some (JStr v))
      /\ (forall vs, (2 <= List.length vs)%nat -> usp_getAll key p = vs ->
                     obj_get key (toObject (OfParams p)) = Some (JArr (map JStr vs)))
      /\ obj_get key (toObject (OfParams p)) <> Some JNull
      /\ expand (obj_get key (toObject (OfParams p))) = usp_getAll key p)
  /\ (forall h : Headers,
      (headers_values key h = [] -> obj_get key (toObject (OfHeaders h)) = None)
      /\ (forall vs, headers_values key h = vs ->
                     truthy (String.concat ", " vs) = true ->
                     obj_get key (toObject (OfHeaders h))
                     = Some (JStr (String.concat ", " vs)))
      /\ (forall vs, headers_values key h = vs ->
                     truthy (String.concat ", " vs) = false ->
                     obj_get key (toObject (OfHeaders h)) = None)
      /\ obj_get key (toObject (OfHeaders h)) <> Some JNull).
Proof.
  split.
  - intros p. rewrite toObject_params_lookup. repeat split.
    + intros v ->. reflexivity.
    + intros vs Hlen ->. destruct vs as [|a [|b vs]]; simpl in *; auto; lia.
    + destruct (usp_getAll key p) as [|a [|b vs]]; simpl; discriminate.
    + destruct (nonempty (usp_getAll key p)) eqn:E.
      * apply expand_scalar_or_array.
      * destruct (usp_getAll key p); [reflexivity | discriminate].
  - intros h. rewrite toObject_headers_lookup. unfold header_entry, headers_get.
    repeat split.
    + intros ->. reflexivity.
    + intros vs -> Ht. destruct vs; [discriminate|]. now rewrite Ht.
    + intros vs -> Ht. destruct vs; [reflexivity|]. now rewrite Ht.
    + destruct (headers_values key h); [discriminate|].
      destruct (truthy _); discriminate.
Qed.

Lemma toObject_flattening_witness :
  expand (obj_get "a" (toObject (OfParams [("a", "1"); ("b", EmptyString); ("a", "2")])))
  = ["1"; "2"]
  /\ obj_get "accept" (toObject (OfHeaders [("accept", "text/html"); ("accept", "text/plain")]))
     = Some (JStr "text/html, text/plain")
  /\ obj_get "x-empty" (toObject (OfHeaders [("x-empty", EmptyString)])) = None.
Proof.
  split; [|split].
  - exact (proj2 (proj2 (proj2
      (proj1 (toObject_flattening "a")
         [("a", "1"); ("b", EmptyString); ("a", "2")])))).
  - apply (proj1 (proj2
      (proj2 (toObject_flattening "accept")
         [("accept", "text/html"); ("accept", "text/plain")]))
      ["text/html"; "text/plain"]); reflexivity.
  - apply (proj1 (proj2 (proj2
      (proj2 (toObject_flattening "x-empty") [("x-empty", EmptyString)])))
      [EmptyString]); reflexivity.
Defined.

(** C2 as stated fails on headers: two values of one name are joined into
    one string, not kept as a sequence, and a single empty value is
    dropped. *)
Lemma toObject_headers_not_as_specified :
  ~ flattened_as_specified
      (OfHeaders [("accept", "text/html"); ("accept", "text/plain")])
  /\ ~ flattened_as_specified (OfHeaders [("x-empty", EmptyString)]).
Proof.
  split; intros H.
  - destruct (H "accept") as [_ [Hseq _]].
    specialize (Hseq ["text/html"; "text/plain"]).
    simpl in Hseq. discriminate Hseq; [lia | reflexivity].
  - destruct (H "x-empty") as [Hone _].
    specialize (Hone EmptyString eq_refl). discriminate Hone.
Qed.

(** ** Strings *)

Lemma split_not_nil (sep : ascii) (s : string) : split sep s <> [].
Proof.
  destruct s as [|c s]; simpl; [discriminate|].
  destruct (Ascii.eqb c sep); [discriminate|].
  destruct (split sep s); discriminate.
Qed.

(** A string without the separator is a single piece. *)
Lemma split_without (sep : ascii) (s : string) :
  has_char sep s = false -> split sep s = [s].
Proof.
  induction s as [|c s IH]; simpl; auto.
  destruct (Ascii.eqb c sep); simpl; [discriminate|].
  intros H. now rewrite IH.
Qed.

(** The first piece ends at the first separator. *)
Lemma split_app (sep : ascii) (a b : string) :
  has_char sep a = false ->
  split sep (a ++ String sep b) = a :: split sep b.
Proof.
  induction a as [|c a IH]; simpl.
  - intros _. now rewrite Ascii.eqb_refl.
  - destruct (Ascii.eqb c sep); simpl; [discriminate|].
    intros H. now rewrite IH.
Qed.

(** The pieces hold no separator, and joining them with the separator
    gives the string back. *)
Lemma split_pieces (sep : ascii) (s : string) :
  Forall (fun piece => has_char sep piece = false) (split sep s)
  /\ String.concat (String sep EmptyString) (split sep s) = s.
Proof.
  induction s as [|c s [IHf IHc]]; simpl.
  - split; [repeat constructor | reflexivity].
  - destruct (Ascii.eqb_spec c sep) as [->|Hne].
    + split; [constructor; auto|].
      simpl. destruct (split sep s) eqn:E; [now apply split_not_nil in E|].
      simpl in *. now rewrite IHc.
    + destruct (split sep s) as [|piece pieces] eqn:E;
        [now apply split_not_nil in E|].
      apply Forall_cons_iff in IHf. destruct IHf as [Hpiece Hpieces]. split.
      * constructor; auto. simpl.
        destruct (Ascii.eqb_spec c sep); [contradiction | assumption].
      * simpl in *. destruct pieces; simpl in *; now rewrite <- IHc.
Qed.

(** Exactly two pieces: the string is the two pieces around its only
    separator. *)
Lemma split_two (sep : ascii) (s a b : string) :
  split sep s = [a; b] <->
  s = a ++ String sep b /\ has_char sep a = false /\ has_char sep b = false.
Proof.
  split.
  - intros H. destruct (split_pieces sep s) as [Hf Hc]. rewrite H in Hf, Hc.
    inversion Hf as [|? ? Ha Hf']; subst. inversion Hf' as [|? ? Hb _]; subst.
    simpl in *. repeat split; auto.
  - intros (-> & Ha & Hb). rewrite split_app by assumption.
    now rewrite split_without.
Qed.

Lemma prefix_app (p s : string) : String.prefix p (p ++ s) = true.
Proof.
  induction p as [|c p IH]; simpl.
  - now destruct s.
  - destruct (ascii_dec c c); [assumption | contradiction].
Qed.

Lemma length_app_char (q : string) (c : ascii) :
  String.length (q ++ String c EmptyString) = S (String.length q).
Proof. induction q; simpl; congruence. Qed.

Lemma substring_init (q : string) (c : ascii) :
  substring 0 (String.length q) (q ++ String c EmptyString) = q.
Proof. induction q; simpl; congruence. Qed.

Lemma substring_last (q : string) (c : ascii) :
  substring (String.length q) 1 (q ++ String c EmptyString) = String c EmptyString.
Proof. induction q; simpl; auto. Qed.

Lemma endsWith_app_char (q : string) (c : ascii) :
  endsWith (q ++ String c EmptyString) (String c EmptyString) = true.
Proof.
  unfold endsWith. rewrite length_app_char. simpl.
  rewrite Nat.sub_0_r, substring_last. apply String.eqb_refl.
Qed.

Lemma string_snoc (s : string) :
  s = EmptyString \/ exists q c, s = q ++ String c EmptyString.
Proof.
  induction s as [|x s [->|(q & c & ->)]]; auto; right.
  - now exists EmptyString, x.
  - now exists (String x q), c.
Qed.

(** A string that ends with a character is some string followed by it. *)
Lemma endsWith_char_inv (s : string) (c : ascii) :
  endsWith s (String c EmptyString) = true ->
  exists q, s = q ++ String c EmptyString.
Proof.
  destruct (string_snoc s) as [->|(q & x & ->)]; [discriminate|].
  unfold endsWith. rewrite length_app_char. simpl.
  rewrite Nat.sub_0_r, substring_last.
  destruct (String.eqb_spec (String x EmptyString) (String c EmptyString)) as [E|];
    [|discriminate].
  intros _. exists q. congruence.
Qed.

(** ** Authentication routes *)

Lemma truthy_app (a b : string) : truthy a = true -> truthy (a ++ b) = true.
Proof. now destruct a. Qed.

(** A header made of a scheme, one space and a token without spaces has
    exactly these two fragments. *)
Lemma scheme_and_token (scheme token : string) :
  has_char " " scheme = false -> has_char " " token = false ->
  split " " (scheme ++ String " " token) = [scheme; token].
Proof. intros Hs Ht. apply split_two. auto. Qed.

(** C6. On [/auth/bearer], a header made of the scheme [Bearer], one space
    and a token without spaces is answered 200 with that token, whatever
    the token is; every other header, and no header, is answered 401 with
    the challenge [Bearer] and a null token. *)
Theorem get_auth_bearer_spec (req : Request) (resp : Response) :
  (forall token,
      headers_get "authorization" (req_headers req) = Some ("Bearer " ++ token) ->
      has_char " " token = false ->
      exists r,
        get_auth_bearer req resp = Normal r
        /\ status r = 200%Z
        /\ res_body r
           = Some (JObj [("authorized", JBool true); ("token", JStr token)]))
  /\ (~ (exists token,
            headers_get "authorization" (req_headers req)
            = Some ("Bearer " ++ token)
            /\ has_char " " token = false) ->
      exists r,
        get_auth_bearer req resp = Normal r
        /\ status r = 401%Z
        /\ get_header "www-authenticate" r = Some "Bearer"
        /\ res_body r
           = Some (JObj [("authorized", JBool false); ("token", JNull)])).
Proof.
  split.
  - intros token Hh Htok. unfold get_auth_bearer. rewrite Hh.
    change ("Bearer " ++ token) with ("Bearer" ++ String " " token).
    unfold startsWith. rewrite prefix_app, truthy_app by reflexivity.
    rewrite scheme_and_token by auto. simpl.
    eexists. repeat split.
  - intros Hnot.
    exists (bearer_unauthorized resp). split; [|repeat split].
    unfold get_auth_bearer.
    destruct (headers_get "authorization" (req_headers req)) as [h|]; auto.
    destruct (truthy h && startsWith h "Bearer"); auto.
    destruct (split " " h) as [|scheme [|token [|]]] eqn:E; auto.
    destruct (String.eqb_spec scheme "Bearer") as [->|]; auto.
    apply split_two in E. destruct E as (-> & _ & Htok).
    exfalso. apply Hnot. now exists token.
Qed.

Lemma get_auth_bearer_spec_witness :
  (exists r,
      get_auth_bearer
        (request_with_headers [("authorization", "Bearer asdfghjkl")]) fresh
      = Normal r
      /\ status r = 200%Z
      /\ res_body r
         = Some (JObj [("authorized", JBool true); ("token", JStr "asdfghjkl")]))
  /\ (exists r,
         get_auth_bearer (request_with_headers []) fresh = Normal r
         /\ status r = 401%Z
         /\ get_header "www-authenticate" r = Some "Bearer"
         /\ res_body r
            = Some (JObj [("authorized", JBool false); ("token", JNull)])).
Proof.
  split.
  - apply (proj1 (get_auth_bearer_spec
                    (request_with_headers [("authorization", "Bearer asdfghjkl")])
                    fresh) "asdfghjkl"); reflexivity.
  - apply (proj2 (get_auth_bearer_spec (request_with_headers []) fresh)).
    intros [token [H _]]. discriminate H.
Defined.

(** C5. On [/auth/basic/:username/:password], a header made of the scheme
    [Basic], one space and a token without spaces that [atob] decodes to
    the user name, a colon and the password, neither holding a colon, is
    answered 200 with the user name. *)
Theorem get_auth_basic_authorized
    (username password credentials : string) (req : Request) (resp : Response) :
  headers_get "authorization" (req_headers req) = Some ("Basic " ++ credentials) ->
  has_char " " credentials = false ->
  atob credentials = Normal (username ++ ":" ++ password) ->
  has_char ":" username = false ->
  has_char ":" password = false ->
  exists r,
    get_auth_basic username password req resp = Normal r
    /\ status r = 200%Z
    /\ res_body r
       = Some (JObj [("authorized", JBool true); ("username", JStr username)]).
Proof.
  intros Hh Htok Hdec Hu Hp. unfold get_auth_basic. rewrite Hh.
  change ("Basic " ++ credentials) with ("Basic" ++ String " " credentials).
  unfold startsWith. rewrite prefix_app, truthy_app by reflexivity.
  rewrite scheme_and_token by auto. simpl. rewrite Hdec. simpl.
  rewrite (proj2 (split_two ":" _ username password)) by auto.
  rewrite !String.eqb_refl. simpl.
  eexists. repeat split.
Qed.

Lemma get_auth_basic_authorized_witness :
  exists r,
    get_auth_basic "hello" "world"
      (request_with_headers [("authorization", "Basic aGVsbG86d29ybGQ=")]) fresh
    = Normal r
    /\ status r = 200%Z
    /\ res_body r
       = Some (JObj [("authorized", JBool true); ("username", JStr "hello")]).
Proof.
  apply (get_auth_basic_authorized "hello" "world" "aGVsbG86d29ybGQ=");
    reflexivity.
Defined.

(** The outcomes of the Basic handler: the success answer, the 401 answer,
    or the exception of [atob]. *)
Lemma get_auth_basic_outcomes
    (username password : string) (req : Request) (resp : Response) :
  get_auth_basic username password req resp
  = Normal (set_body
              (JObj [("authorized", JBool true); ("username", JStr username)])
              (set_status 200 resp))
  \/ get_auth_basic username password req resp = Normal (basic_unauthorized resp)
  \/ get_auth_basic username password req resp = Throw InvalidCharacterError.
Proof.
  unfold get_auth_basic.
  destruct (headers_get "authorization" (req_headers req)) as [h|]; auto.
  destruct (truthy h && startsWith h "Basic"); auto.
  destruct (split " " h) as [|scheme [|credentials [|]]]; auto.
  destruct (scheme =? "Basic")%string; auto.
  unfold atob.
  destruct (Nat.modulo _ 4 =? 1)%nat; simpl; auto.
  destruct (sextets _); simpl; auto.
  destruct (split ":" _) as [|u [|p [|]]]; auto.
  destruct ((u =? username)%string && (p =? password)%string); auto.
Qed.

(** C3, at a header whose token is not base64: the handler does not answer
    401, the exception of [atob] leaves it. *)
Theorem get_auth_basic_invalid_base64 :
  get_auth_basic "hello" "world"
    (request_with_headers [("authorization", "Basic ###")]) fresh
  = Throw InvalidCharacterError.
Proof. reflexivity. Qed.

(** Every rejection that does not come from [atob]: when the header is not
    a matching credential and [atob] is not made to throw, the answer is
    401 with the Basic challenge. *)
Lemma get_auth_basic_rejected
    (username password : string) (req : Request) (resp : Response) :
  (forall credentials,
      headers_get "authorization" (req_headers req) = Some ("Basic " ++ credentials) ->
      has_char " " credentials = false ->
      exists decoded,
        atob credentials = Normal decoded
        /\ decoded <> username ++ ":" ++ password) ->
  get_auth_basic username password req resp = Normal (basic_unauthorized resp)
  /\ status (basic_unauthorized resp) = 401%Z
  /\ get_header "www-authenticate" (basic_unauthorized resp) = Some basic_challenge
  /\ res_body (basic_unauthorized resp)
     = Some (JObj [("authorized", JBool false); ("username", JNull)]).
Proof.
  intros Hrej. split; [|repeat split].
  unfold get_auth_basic.
  destruct (headers_get "authorization" (req_headers req)) as [h|]; auto.
  destruct (truthy h && startsWith h "Basic"); auto.
  destruct (split " " h) as [|scheme [|credentials [|]]] eqn:E; auto.
  destruct (String.eqb_spec scheme "Basic") as [->|]; auto.
  apply split_two in E. destruct E as (-> & _ & Htok).
  destruct (Hrej credentials eq_refl Htok) as (decoded & -> & Hne). simpl.
  destruct (split ":" decoded) as [|u [|p [|]]] eqn:E; auto.
  destruct (String.eqb_spec u username) as [->|]; auto.
  destruct (String.eqb_spec p password) as [->|]; auto.
  apply split_two in E. destruct E as (-> & _). now elim Hne.
Qed.

(** ** The body decoder *)

Lemma body_fails_try (req : Request) (e : Exn) :
  body_fails req e -> bodyInfo_try req = Throw e.
Proof.
  unfold body_fails, bodyInfo_try.
  intros [H|[H|[H|[H|[H|H]]]]]; rewrite H; reflexivity.
Qed.

Lemma bodyInfo_returns (req : Request) :
  bodyInfo req
  = Normal (match bodyInfo_try req with
            | Normal info => info
            | Throw _ => body_of "error" JNull
            end).
Proof. unfold bodyInfo. now destruct (bodyInfo_try req). Qed.

Lemma obj_spread_single (a : Obj) (key : string) (v : JSON) :
  obj_get key (obj_spread a [(key, v)]) = Some v.
Proof. unfold obj_spread. simpl. apply obj_get_set_same. Qed.

(** C1. [bodyInfo] always returns one decoded body and never throws; when
    detecting or decoding the body throws, what it returns is the sentinel
    of type [error] with a null value, and the handler of [/post] still
    completes with a 200 response that embeds the sentinel. *)
Theorem bodyInfo_never_throws (req : Request) :
  (exists info, bodyInfo req = Normal info)
  /\ (forall e, body_fails req e ->
        bodyInfo req = Normal (body_of "error" JNull)
        /\ (forall resp, res_status resp = None ->
              exists r,
                post_post req resp = Normal r
                /\ status r = 200%Z
                /\ embedded_body r = Some error_sentinel)).
Proof.
  split.
  - rewrite bodyInfo_returns. eauto.
  - intros e He. apply body_fails_try in He.
    assert (Hinfo : bodyInfo req = Normal (body_of "error" JNull))
      by (rewrite bodyInfo_returns, He; reflexivity).
    split; [exact Hinfo|].
    intros resp Hst. unfold post_post. rewrite Hinfo. simpl.
    eexists. split; [reflexivity|]. split.
    + unfold status. simpl. now rewrite Hst.
    + unfold embedded_body. simpl.
      exact (obj_spread_single (basicInfo req) "body" error_sentinel).
Qed.

Lemma bodyInfo_never_throws_witness :
  bodyInfo
    (mkRequest "127.0.0.1" (mkURL "http://localhost:3000/post" "/post" []) []
       (Normal (BodyJson (Throw (Thrown "SyntaxError")))))
  = Normal (body_of "error" JNull)
  /\ (exists r,
         post_post
           (mkRequest "127.0.0.1" (mkURL "http://localhost:3000/post" "/post" []) []
              (Normal (BodyJson (Throw (Thrown "SyntaxError")))))
           fresh
         = Normal r
         /\ status r = 200%Z
         /\ embedded_body r = Some error_sentinel).
Proof.
  destruct (proj2 (bodyInfo_never_throws
                     (mkRequest "127.0.0.1"
                        (mkURL "http://localhost:3000/post" "/post" []) []
                        (Normal (BodyJson (Throw (Thrown "SyntaxError"))))))
              (Thrown "SyntaxError")) as [Hinfo Hpost].
  - right. left. reflexivity.
  - split; [exact Hinfo|]. apply Hpost. reflexivity.
Defined.

(** ** Redirects *)

Lemma get_header_set_header (name value : string) (r : Response) :
  get_header name (set_header name value r) = Some value.
Proof. unfold get_header, set_header. simpl. now rewrite String.eqb_refl. Qed.

Lemma redirect_location (url : string) (r : Response) :
  get_header "location" (redirect url r) = Some url.
Proof.
  unfold redirect. destruct (isRedirectStatus _); apply get_header_set_header.
Qed.

Lemma redirect_body (url : string) (r : Response) :
  res_body (redirect url r) = res_body r.
Proof. unfold redirect. now destruct (isRedirectStatus _). Qed.

Lemma redirect_status_kept (url : string) (r : Response) (s : Z) :
  res_status r = Some s -> isRedirectStatus s = true ->
  status (redirect url r) = s.
Proof.
  intros Hs Hr. unfold redirect, status. simpl. rewrite Hs, Hr. simpl.
  now rewrite Hs.
Qed.

Lemma redirect_status_default (url : string) (r : Response) :
  res_status r = None -> status (redirect url r) = Found.
Proof.
  intros Hs. unfold redirect, status. simpl. rewrite Hs.
  now destruct (res_body r) as [[]|].
Qed.

(** C9. When the path is not [/] and ends with a slash, the middleware
    answers 301 with the path less its last slash as the target, and the
    answer is the same whatever the rest of the chain is: the route
    handler is not run.  For every other path the middleware is the rest
    of the chain. *)
Theorem trailing_slash_spec (req : Request) (resp : Response) :
  (pathname (req_url req) <> "/" ->
   endsWith (pathname (req_url req)) "/" = true ->
   exists q r,
     pathname (req_url req) = q ++ "/"
     /\ (forall next, trailing_slash next req resp = Normal r)
     /\ status r = 301%Z
     /\ get_header "location" r = Some q)
  /\ (pathname (req_url req) = "/" \/ endsWith (pathname (req_url req)) "/" = false ->
      forall next, trailing_slash next req resp = next req resp).
Proof.
  split.
  - intros Hroot Hends.
    destruct (endsWith_char_inv _ _ Hends) as [q Hq].
    exists q, (redirect q (set_status 301 resp)). split; [exact Hq|]. split; [|split].
    + intros next. unfold trailing_slash. rewrite Hends.
      destruct (String.eqb_spec (pathname (req_url req)) "/") as [E|_];
        [contradiction|]. simpl.
      rewrite Hq, length_app_char. simpl. rewrite Nat.sub_0_r.
      now rewrite substring_init.
    + now apply redirect_status_kept.
    + apply redirect_location.
  - intros Hother next. unfold trailing_slash.
    destruct Hother as [-> | ->]; [reflexivity|].
    now rewrite andb_false_r.
Qed.

Lemma trailing_slash_spec_witness :
  exists q r,
    "/get/" = q ++ "/"
    /\ (forall next, trailing_slash next (request_for "/get/" []) fresh = Normal r)
    /\ status r = 301%Z
    /\ get_header "location" r = Some q.
Proof.
  apply (proj1 (trailing_slash_spec (request_for "/get/" []) fresh));
    [discriminate | reflexivity].
Defined.

(** C8, as the code has it.  When [to] is absent or empty the answer is
    400 with the error body.  When [to] is a non-empty string, the answer
    carries it unchanged in the [Location] header and the handler assigns
    no body; the status is 301 when [permanent] is [1] or [true], and the
    default redirect status of the serving layer otherwise. *)
Theorem get_redirect_spec (req : Request) (resp : Response) :
  (usp_get "to" (searchParams (req_url req)) = None
   \/ usp_get "to" (searchParams (req_url req)) = Some EmptyString ->
   exists r,
     get_redirect req resp = Normal r
     /\ status r = 400%Z
     /\ res_body r = Some (error_body "provide a `to` link in the URL"))
  /\ (forall target,
        usp_get "to" (searchParams (req_url req)) = Some target ->
        target <> EmptyString ->
        res_status resp = None ->
        exists r,
          get_redirect req resp = Normal r
          /\ get_header "location" r = Some target
          /\ res_body r = res_body resp
          /\ (usp_get "permanent" (searchParams (req_url req)) = Some "1"
              \/ usp_get "permanent" (searchParams (req_url req)) = Some "true" ->
              status r = 301%Z)
          /\ (usp_get "permanent" (searchParams (req_url req)) <> Some "1" ->
              usp_get "permanent" (searchParams (req_url req)) <> Some "true" ->
              status r = Found)).
Proof.
  split.
  - intros H. exists (missing_to resp). split; [|split; reflexivity].
    unfold get_redirect. destruct H as [-> | ->]; reflexivity.
  - intros target Hto Hne Hst. unfold get_redirect. rewrite Hto.
    destruct target as [|c target]; [contradiction|]. simpl.
    eexists. split; [reflexivity|].
    split; [apply redirect_location|]. split; [|split].
    + rewrite redirect_body. now destruct (is_permanent _).
    + intros [-> | ->]; simpl; now apply redirect_status_kept.
    + intros H1 Ht.
      destruct (usp_get "permanent" (searchParams (req_url req))) as [v|]; simpl.
      * destruct (String.eqb_spec v "1") as [->|_]; [contradiction|].
        destruct (String.eqb_spec v "true") as [->|_]; [contradiction|].
        now apply redirect_status_default.
      * now apply redirect_status_default.
Qed.

Lemma get_redirect_spec_witness :
  exists r,
    get_redirect
      (request_for "/redirect" [("to", "https://example.com"); ("permanent", "true")])
      fresh
    = Normal r
    /\ get_header "location" r = Some "https://example.com"
    /\ res_body r = None
    /\ (Some "true" = Some "1" \/ Some "true" = Some "true" -> status r = 301%Z)
    /\ (Some "true" <> Some "1" -> Some "true" <> Some "true" -> status r = Found).
Proof.
  apply (proj2 (get_redirect_spec
                  (request_for "/redirect"
                     [("to", "https://example.com"); ("permanent", "true")])
                  fresh) "https://example.com");
    [reflexivity | discriminate | reflexivity].
Defined.

(** C8 as stated fails when [to] is present and empty: the claim takes
    every present [to] to be redirected to, and the code answers 400
    without a [Location] header. *)
Lemma get_redirect_empty_to_is_not_redirected :
  usp_get "to" [("to", EmptyString)] = Some EmptyString
  /\ ~ (exists r,
           get_redirect (request_for "/redirect" [("to", EmptyString)]) fresh
           = Normal r
           /\ get_header "location" r = Some EmptyString)
  /\ get_redirect (request_for "/redirect" [("to", EmptyString)]) fresh
     = Normal (missing_to fresh).
Proof.
  split; [reflexivity|]. split; [|reflexivity].
  intros (r & Hr & Hloc). vm_compute in Hr.
  injection Hr as <-. discriminate Hloc.
Qed.

(** C10. A [to] that is present and empty is answered as an absent one:
    400 with the same error body.  A [Location] header is only ever set
    from a [to] that is a non-empty string. *)
Theorem get_redirect_empty_to (req : Request) (resp : Response) :
  (usp_get "to" (searchParams (req_url req)) = Some EmptyString ->
   get_redirect req resp = Normal (missing_to resp))
  /\ (usp_get "to" (searchParams (req_url req)) = None ->
      get_redirect req resp = Normal (missing_to resp))
  /\ status (missing_to resp) = 400%Z
  /\ res_body (missing_to resp)
     = Some (error_body "provide a `to` link in the URL")
  /\ (forall r location,
        get_header "location" resp = None ->
        get_redirect req resp = Normal r ->
        get_header "location" r = Some location ->
        usp_get "to" (searchParams (req_url req)) = Some location
        /\ location <> EmptyString).
Proof.
  unfold get_redirect.
  split; [|split; [|split; [|split]]]; try reflexivity.
  - intros ->. reflexivity.
  - intros ->. reflexivity.
  - intros r location Hnone.
    destruct (usp_get "to" (searchParams (req_url req))) as [target|].
    + destruct target as [|c target]; simpl.
      * intros [= <-] H. unfold missing_to, get_header in *. simpl in H.
        rewrite Hnone in H. discriminate.
      * intros [= <-] H. rewrite redirect_location in H.
        injection H as <-. split; [reflexivity | discriminate].
    + intros [= <-] H. unfold missing_to, get_header in *. simpl in H.
      rewrite Hnone in H. discriminate.
Qed.

Lemma get_redirect_empty_to_witness :
  get_redirect (request_for "/redirect" [("to", EmptyString)]) fresh
  = Normal (missing_to fresh)
  /\ usp_get "to" [("to", "/get")] = Some "/get".
Proof.
  split.
  - apply (proj1 (get_redirect_empty_to
                    (request_for "/redirect" [("to", EmptyString)]) fresh)).
    reflexivity.
  - apply (proj2 (proj2 (proj2 (proj2
             (get_redirect_empty_to (request_for "/redirect" [("to", "/get")]) fresh))))
             (redirect "/get" fresh) "/get"); reflexivity.
Defined.

(** ** Status codes *)

(** The codes from 200 to 599, written in decimal, are digit strings that
    the unary plus reads back. *)
Lemma status_codes_read_back (n : Z) :
  (200 <= n <= 599)%Z ->
  digits_only (Number_toString n) = true /\ ToNumber (Number_toString n) = n.
Proof.
  intros Hn.
  assert (Hall : forallb reads_back (seq 200 400) = true) by (vm_compute; reflexivity).
  rewrite forallb_forall in Hall.
  specialize (Hall (Z.to_nat n)).
  rewrite in_seq in Hall. unfold reads_back in Hall.
  rewrite Z2Nat.id in Hall by lia.
  apply andb_true_iff in Hall; [|lia].
  destruct Hall as [Hd Hv]. split; [exact Hd | now apply Z.eqb_eq].
Qed.

Lemma length_append (a b : string) :
  String.length (a ++ b) = (String.length a + String.length b)%nat.
Proof. induction a; simpl; congruence. Qed.

(** The two error messages of the handler differ, whatever the number. *)
Lemma outside_range_is_not_nan (n : Z) :
  Some (outside_range n) <> Some (error_body "status code is not a number").
Proof.
  unfold outside_range, error_body. intros [= H].
  apply (f_equal String.length) in H.
  rewrite !length_append in H. simpl in H. lia.
Qed.

(** An integer up to [2^53] is a number. *)
Lemma round_binary64_exact (n : Z) :
  (n <= MAX_SAFE)%Z -> round_binary64 n = n.
Proof.
  intros Hn. unfold round_binary64.
  destruct (Z.ltb_spec n MAX_SAFE) as [|Hge]; [reflexivity|].
  assert (n = MAX_SAFE) as -> by lia. reflexivity.
Qed.

(** From [2^53] on, the number for an integer is at least [2^53]. *)
Lemma round_binary64_large (n : Z) :
  (MAX_SAFE <= n)%Z -> (MAX_SAFE <= round_binary64 n)%Z.
Proof.
  intros Hn. unfold round_binary64.
  destruct (Z.ltb_spec n MAX_SAFE) as [|_]; [lia|].
  cbv zeta.
  destruct (Z.leb_spec Infinity
              (Z.shiftl
                 (if (Z.shiftl 1 (Z.log2 n - 52 - 1)
                        <? n - Z.shiftl (Z.shiftr n (Z.log2 n - 52)) (Z.log2 n - 52))%Z
                     || ((n - Z.shiftl (Z.shiftr n (Z.log2 n - 52)) (Z.log2 n - 52)
                            =? Z.shiftl 1 (Z.log2 n - 52 - 1))%Z
                           && Z.odd (Z.shiftr n (Z.log2 n - 52)))
                  then (Z.shiftr n (Z.log2 n - 52) + 1)%Z
                  else Z.shiftr n (Z.log2 n - 52))
                 (Z.log2 n - 52))) as [_|_];
    [vm_compute; discriminate|].
  assert (Hpos : (0 < n)%Z) by (unfold MAX_SAFE in Hn; lia).
  assert (HL : (53 <= Z.log2 n)%Z).
  { change 53%Z with (Z.log2 MAX_SAFE). now apply Z.log2_le_mono. }
  set (e := (Z.log2 n - 52)%Z) in *.
  assert (He : (1 <= e)%Z) by (subst e; lia).
  pose proof (Z.log2_spec n Hpos) as [Hlow _].
  replace (Z.log2 n) with (52 + e)%Z in Hlow by (subst e; lia).
  rewrite Z.pow_add_r in Hlow by lia.
  assert (Hp : (0 < 2 ^ e)%Z) by (apply Z.pow_pos_nonneg; lia).
  assert (Hm : (2 ^ 52 <= Z.shiftr n e)%Z).
  { rewrite Z.shiftr_div_pow2 by lia. apply Z.div_le_lower_bound; lia. }
  rewrite Z.shiftl_mul_pow2 by lia.
  assert (H2e : (2 <= 2 ^ e)%Z).
  { change 2%Z with (2 ^ 1)%Z at 1. apply Z.pow_le_mono_r; lia. }
  unfold MAX_SAFE. change (2 ^ 53)%Z with (2 ^ 52 * 2)%Z.
  destruct (_ || _); nia.
Qed.

(** The range test on the number of a digit string is the range test on
    its value. *)
Lemma ToNumber_in_range (code : string) :
  (200 <= ToNumber code <= 599)%Z <-> (200 <= decimal_value code <= 599)%Z.
Proof.
  unfold ToNumber.
  destruct (Z_le_gt_dec (decimal_value code) MAX_SAFE) as [Hle|Hgt].
  - now rewrite round_binary64_exact.
  - pose proof (round_binary64_large (decimal_value code)) as Hlarge.
    unfold MAX_SAFE in *. lia.
Qed.

(** C4, as the code has it.  A code made of digits is handed to the
    handler.  Were the conversion to throw, the answer would be 400 with
    the not-a-number message; it never throws, and that message is not
    produced.  The code is parsed to the number for its value: the value
    itself up to [2^53], and a number in [200, 599] exactly when the value
    is.  When the number lies in [200, 599] the answer has that status and
    a null body, otherwise it is 400 with the out-of-range message that
    holds the text of the number.  In particular each integer from 200 to
    599 gets its own status.  A code with a character that is not a digit
    does not match the route: the handler is not run and the response is
    left as it was. *)
Theorem status_route_spec (code : string) (req : Request) (resp : Response) :
  (forall e, exists r,
      all_status_on (Throw e) req resp = Normal r
      /\ status r = 400%Z
      /\ res_body r = Some (error_body "status code is not a number"))
  /\ unary_plus code = Normal (ToNumber code)
  /\ ((decimal_value code <= MAX_SAFE)%Z -> ToNumber code = decimal_value code)
  /\ ((200 <= ToNumber code <= 599)%Z <-> (200 <= decimal_value code <= 599)%Z)
  /\ (digits_only code = true ->
      exists r,
        status_route code req resp = Normal r
        /\ ((200 <= ToNumber code <= 599)%Z ->
            status r = ToNumber code /\ res_body r = Some JNull)
        /\ ((ToNumber code < 200 \/ 599 < ToNumber code)%Z ->
            status r = 400%Z
            /\ res_body r
               = Some (error_body
                         ("status code " ++ Number_toString (ToNumber code)
                            ++ " is outside the range [200, 599]")))
        /\ res_body r <> Some (error_body "status code is not a number"))
  /\ (forall n, (200 <= n <= 599)%Z ->
        exists r,
          status_route (Number_toString n) req resp = Normal r
          /\ status r = n /\ res_body r = Some JNull)
  /\ (digits_only code = false -> status_route code req resp = Normal resp).
Proof.
  assert (Hin : forall c, (200 <= ToNumber c <= 599)%Z ->
            all_status c req resp
            = Normal (set_body JNull (set_status (ToNumber c) resp))).
  { intros c Hc. unfold all_status, all_status_on, unary_plus.
    destruct (Z.ltb_spec (ToNumber c) 200); [lia|].
    destruct (Z.gtb_spec (ToNumber c) 599); [lia|]. reflexivity. }
  assert (Hout : forall c, (ToNumber c < 200 \/ 599 < ToNumber c)%Z ->
            all_status c req resp
            = Normal (set_body (outside_range (ToNumber c)) (set_status 400 resp))).
  { intros c Hc. unfold all_status, all_status_on, unary_plus.
    destruct (Z.ltb_spec (ToNumber c) 200); [reflexivity|].
    destruct (Z.gtb_spec (ToNumber c) 599); [reflexivity | lia]. }
  split; [|split; [reflexivity|split; [|split; [|split; [|split]]]]].
  - intros e. eexists. repeat split.
  - intros Hle. unfold ToNumber. now apply round_binary64_exact.
  - apply ToNumber_in_range.
  - intros Hd. unfold status_route. rewrite Hd.
    destruct (Z_lt_ge_dec (ToNumber code) 200) as [Hlo|Hlo];
      [|destruct (Z_lt_ge_dec 599 (ToNumber code)) as [Hhi|Hhi]].
    + rewrite Hout by lia. eexists. split; [reflexivity|].
      split; [lia|]. split; [|apply outside_range_is_not_nan].
      intros _. split; reflexivity.
    + rewrite Hout by lia. eexists. split; [reflexivity|].
      split; [lia|]. split; [|apply outside_range_is_not_nan].
      intros _. split; reflexivity.
    + rewrite Hin by lia. eexists. split; [reflexivity|].
      split; [intros _; split; reflexivity|]. split; [lia | discriminate].
  - intros n Hn. destruct (status_codes_read_back n Hn) as [Hd Hv].
    unfold status_route. rewrite Hd, Hin by (rewrite Hv; exact Hn).
    rewrite Hv. eexists. repeat split.
  - intros Hd. unfold status_route. now rewrite Hd.
Qed.

Lemma status_route_spec_witness :
  (exists r,
      status_route "42" (request_for "/status/42" []) fresh = Normal r
      /\ status r = 400%Z
      /\ res_body r
         = Some (error_body "status code 42 is outside the range [200, 599]"))
  /\ (exists r,
         status_route "9007199254740993"
           (request_for "/status/9007199254740993" []) fresh
         = Normal r
         /\ status r = 400%Z
         /\ res_body r
            = Some (error_body
                      "status code 9007199254740992 is outside the range [200, 599]"))
  /\ (exists r,
         status_route "418" (request_for "/status/418" []) fresh = Normal r
         /\ status r = 418%Z /\ res_body r = Some JNull)
  /\ status_route "abc" (request_for "/status/abc" []) fresh = Normal fresh.
Proof.
  split; [|split; [|split]].
  - destruct (proj1 (proj2 (proj2 (proj2 (proj2
                (status_route_spec "42" (request_for "/status/42" []) fresh)))))
                eq_refl) as (r & Hr & _ & Hout & _).
    exists r. split; [exact Hr|].
    apply Hout. left. vm_compute. reflexivity.
  - destruct (proj1 (proj2 (proj2 (proj2 (proj2
                (status_route_spec "9007199254740993"
                   (request_for "/status/9007199254740993" []) fresh)))))
                eq_refl) as (r & Hr & _ & Hout & _).
    exists r. split; [exact Hr|].
    apply Hout. right. vm_compute. reflexivity.
  - destruct (proj1 (proj2 (proj2 (proj2 (proj2
                (status_route_spec "418" (request_for "/status/418" []) fresh)))))
                eq_refl) as (r & Hr & Hin & _).
    exists r. split; [exact Hr|].
    apply Hin. vm_compute. split; discriminate.
  - apply (proj2 (proj2 (proj2 (proj2 (proj2 (proj2
             (status_route_spec "abc" (request_for "/status/abc" []) fresh))))))).
    reflexivity.
Defined.

(** C4 as stated fails at [abc]: the route takes digits only, so the
    handler does not answer 400 there; the response keeps the state it
    had, which is not a 400. *)
Lemma status_route_abc_is_not_400 :
  ~ (exists r,
        status_route "abc" (request_for "/status/abc" []) fresh = Normal r
        /\ status r = 400%Z).
Proof.
  intros (r & Hr & Hs). vm_compute in Hr. injection Hr as <-.
  vm_compute in Hs. discriminate Hs.
Qed.

(** ** The examples of the specification *)

Example status_examples :
  status_route "600" (request_for "/status/600" []) fresh
  = Normal (set_body
              (error_body "status code 600 is outside the range [200, 599]")
              (set_status 400 fresh))
  /\ status_route "1000" (request_for "/status/1000" []) fresh
     = Normal (set_body
                 (error_body "status code 1000 is outside the range [200, 599]")
                 (set_status 400 fresh))
  /\ status_route "0200" (request_for "/status/0200" []) fresh
     = Normal (set_body JNull (set_status 200 fresh))
  /\ status_route "599" (request_for "/status/599" []) fresh
     = Normal (set_body JNull (set_status 599 fresh)).
Proof. repeat split. Qed.

Example number_text_examples :
  Number_toString (ToNumber "0042") = "42"
  /\ Number_toString (ToNumber "9007199254740995") = "9007199254740996"
  /\ Number_toString (ToNumber "12345678901234567890") = "12345678901234567000"
  /\ Number_toString (ToNumber "999999999999999999999") = "1e+21"
  /\ Number_toString (ToNumber "123456789012345678901234")
     = "1.2345678901234569e+23"
  /\ status_route ("1" ++ zeros 400) (request_for "/status/1" []) fresh
     = Normal (set_body
                 (error_body "status code Infinity is outside the range [200, 599]")
                 (set_status 400 fresh)).
Proof. repeat split; vm_compute; reflexivity. Qed.

Example network_path_example :
  slash_redirect "//example.com/" = Some "//example.com"
  /\ same_server "//example.com" = false
  /\ follow 14 "//example.com/" = None.
Proof. repeat split. Qed.

Example basic_auth_examples :
  get_auth_basic "hello" "world"
    (request_with_headers [("authorization", "Basic bm86Z29vZA==")]) fresh
  = Normal (basic_unauthorized fresh)
  /\ get_auth_basic "hello" "world" (request_with_headers []) fresh
     = Normal (basic_unauthorized fresh)
  /\ get_auth_basic "hello" "world"
       (request_with_headers [("authorization", "Bearer aGVsbG86d29ybGQ=")]) fresh
     = Normal (basic_unauthorized fresh)
  /\ get_header "www-authenticate" (basic_unauthorized fresh) = Some basic_challenge.
Proof. repeat split. Qed.

Example redirect_examples :
  get_redirect (request_for "/redirect" [("to", "https://example.com")]) fresh
  = Normal (mkResponse (Some Found) None [("location", "https://example.com")])
  /\ get_redirect
       (request_for "/redirect" [("to", "https://example.com"); ("permanent", "true")])
       fresh
     = Normal (mkResponse (Some 301%Z) None [("location", "https://example.com")])
  /\ get_redirect (request_for "/redirect" []) fresh = Normal (missing_to fresh).
Proof. repeat split. Qed.

Example post_json_example :
  embedded_body
    (set_body
       (JObj (obj_spread
                (basicInfo (request_for "/post" []))
                (body_of "json"
                   (JObj [("a", JNum 2); ("b", JStr "x"); ("c", JNull)]))))
       fresh)
  = Some (JObj [("type", JStr "json");
                ("value", JObj [("a", JNum 2); ("b", JStr "x"); ("c", JNull)])])
  /\ post_post
       (mkRequest "127.0.0.1" (mkURL "http://localhost:3000/post" "/post" []) []
          (Normal (BodyJson
                     (Normal (JObj [("a", JNum 2); ("b", JStr "x"); ("c", JNull)])))))
       fresh
     = Normal
         (set_body
            (JObj (obj_spread
                     (basicInfo (request_for "/post" []))
                     (body_of "json"
                        (JObj [("a", JNum 2); ("b", JStr "x"); ("c", JNull)]))))
            fresh).
Proof. repeat split. Qed.

(** ** More on the Basic route *)

(** The Basic handler by cases on the header: without a single-token
    [Basic] header the answer is 401; with one, the outcome is that of
    [atob] on the token followed by the comparison of the two parts. *)
Lemma get_auth_basic_no_token
    (username password : string) (req : Request) (resp : Response) :
  (forall credentials, ~ basic_token req credentials) ->
  get_auth_basic username password req resp = Normal (basic_unauthorized resp).
Proof.
  intros Hno. unfold get_auth_basic.
  destruct (headers_get "authorization" (req_headers req)) as [h|] eqn:Eh; auto.
  destruct (truthy h && startsWith h "Basic"); auto.
  destruct (split " " h) as [|scheme [|credentials [|]]] eqn:E; auto.
  destruct (String.eqb_spec scheme "Basic") as [->|]; auto.
  apply split_two in E. destruct E as (-> & _ & Htok).
  exfalso. apply (Hno credentials). split; [exact Eh | exact Htok].
Qed.

Lemma get_auth_basic_token
    (username password credentials : string) (req : Request) (resp : Response) :
  basic_token req credentials ->
  get_auth_basic username password req resp
  = (decoded <- atob credentials ;;
     match split ":" decoded with
     | [u; p] =>
         if (u =? username)%string && (p =? password)%string
         then Normal (basic_authorized username resp)
         else Normal (basic_unauthorized resp)
     | _ => Normal (basic_unauthorized resp)
     end).
Proof.
  intros [Hh Htok]. unfold get_auth_basic. rewrite Hh.
  change ("Basic " ++ credentials) with ("Basic" ++ String " " credentials).
  unfold startsWith. rewrite prefix_app, truthy_app by reflexivity.
  rewrite scheme_and_token by auto. reflexivity.
Qed.

(** A header has at most one reading as a Basic token. *)
Lemma basic_token_unique (req : Request) (c1 c2 : string) :
  basic_token req c1 -> basic_token req c2 -> c1 = c2.
Proof. intros [H1 _] [H2 _]. rewrite H1 in H2. now injection H2. Qed.

Lemma basic_token_split (req : Request) (credentials : string) :
  basic_token req credentials ->
  exists h,
    headers_get "authorization" (req_headers req) = Some h
    /\ split " " h = ["Basic"; credentials].
Proof.
  intros [Hh Hc]. exists ("Basic " ++ credentials). split; [exact Hh|].
  apply (scheme_and_token "Basic" credentials); auto.
Qed.

Lemma basic_token_dec (req : Request) :
  (exists credentials, basic_token req credentials)
  \/ (forall credentials, ~ basic_token req credentials).
Proof.
  destruct (headers_get "authorization" (req_headers req)) as [h|] eqn:Eh;
    [|right; intros c [H _]; congruence].
  assert (Hsplit : forall c, basic_token req c -> split " " h = ["Basic"; c]).
  { intros c Hc. destruct (basic_token_split req c Hc) as (h' & Hh' & Hs).
    congruence. }
  destruct (split " " h) as [|scheme [|credentials [|]]] eqn:E;
    try (right; intros c Hc; specialize (Hsplit c Hc); discriminate).
  destruct (String.eqb_spec scheme "Basic") as [->|Hne].
  - left. exists credentials. apply split_two in E.
    destruct E as (-> & _ & Hc). split; auto.
  - right. intros c Hc. specialize (Hsplit c Hc). congruence.
Qed.

(** What a granted access implies, given the token. *)
Lemma basic_granted_inv
    (username password : string) (req : Request) (resp : Response) (r : Response) :
  get_auth_basic username password req resp = Normal r ->
  status r = 200%Z ->
  exists credentials,
    basic_token req credentials
    /\ atob credentials = Normal (username ++ ":" ++ password)
    /\ has_char ":" username = false
    /\ has_char ":" password = false.
Proof.
  intros Hr Hs.
  destruct (basic_token_dec req) as [[credentials Htok]|Hno].
  - exists credentials. split; [exact Htok|].
    rewrite (get_auth_basic_token _ _ _ _ _ Htok) in Hr.
    destruct (atob credentials) as [decoded|e]; [|discriminate]. simpl in Hr.
    destruct (split ":" decoded) as [|u [|p [|]]] eqn:E;
      try (injection Hr as <-; discriminate Hs).
    destruct (String.eqb_spec u username) as [->|];
      [|injection Hr as <-; discriminate Hs].
    destruct (String.eqb_spec p password) as [->|];
      [|injection Hr as <-; discriminate Hs].
    apply split_two in E. destruct E as (-> & Hu & Hp). auto.
  - rewrite get_auth_basic_no_token in Hr by assumption.
    injection Hr as <-. discriminate Hs.
Qed.

(** X1. The Basic route grants access only to matching credentials: when
    the answer is 200, the header is [Basic], one space and a token that
    [atob] decodes to the user name, a colon and the password of the path,
    and the body names that user. *)
Theorem get_auth_basic_sound
    (username password : string) (req : Request) (resp : Response) (r : Response) :
  get_auth_basic username password req resp = Normal r ->
  status r = 200%Z ->
  (exists credentials,
      headers_get "authorization" (req_headers req) = Some ("Basic " ++ credentials)
      /\ has_char " " credentials = false
      /\ atob credentials = Normal (username ++ ":" ++ password))
  /\ res_body r
     = Some (JObj [("authorized", JBool true); ("username", JStr username)]).
Proof.
  intros Hr Hs.
  destruct (basic_granted_inv _ _ _ _ _ Hr Hs) as (c & Htok & Hdec & Hu & Hp).
  split.
  - exists c. destruct Htok. auto.
  - rewrite (get_auth_basic_token _ _ _ _ _ Htok), Hdec in Hr. simpl in Hr.
    rewrite (proj2 (split_two ":" _ username password)) in Hr by auto.
    rewrite !String.eqb_refl in Hr. injection Hr as <-. reflexivity.
Qed.

Lemma get_auth_basic_sound_witness :
  (exists credentials,
      Some "Basic aGVsbG86d29ybGQ=" = Some ("Basic " ++ credentials)
      /\ has_char " " credentials = false
      /\ atob credentials = Normal "hello:world")
  /\ res_body (basic_authorized "hello" fresh)
     = Some (JObj [("authorized", JBool true); ("username", JStr "hello")]).
Proof.
  apply (get_auth_basic_sound "hello" "world"
           (request_with_headers [("authorization", "Basic aGVsbG86d29ybGQ=")])
           fresh (basic_authorized "hello" fresh));
    reflexivity.
Defined.

(** X2. The Basic handler throws exactly when the header is [Basic], one
    space and a single token that [atob] rejects; what it throws is the
    InvalidCharacterError of [atob].  In every other case it completes
    with a response. *)
Theorem get_auth_basic_throws_iff
    (username password : string) (req : Request) (resp : Response) (e : Exn) :
  get_auth_basic username password req resp = Throw e
  <-> (e = InvalidCharacterError
       /\ exists credentials,
           headers_get "authorization" (req_headers req)
           = Some ("Basic " ++ credentials)
           /\ has_char " " credentials = false
           /\ atob credentials = Throw InvalidCharacterError).
Proof.
  split.
  - intros Hr.
    destruct (basic_token_dec req) as [[credentials Htok]|Hno].
    + rewrite (get_auth_basic_token _ _ _ _ _ Htok) in Hr.
      assert (Hexn : forall x, atob credentials = Throw x -> x = InvalidCharacterError).
      { unfold atob. intros x.
        destruct (Nat.modulo _ 4 =? 1)%nat; [congruence|].
        destruct (sextets _); congruence. }
      destruct (atob credentials) as [decoded|x] eqn:Ea; simpl in Hr.
      * destruct (split ":" decoded) as [|u [|p [|]]]; try discriminate.
        destruct ((u =? username)%string && (p =? password)%string); discriminate.
      * injection Hr as <-. rewrite (Hexn x eq_refl) in *.
        split; [reflexivity|]. exists credentials. destruct Htok. auto.
    + rewrite get_auth_basic_no_token in Hr by assumption. discriminate.
  - intros (-> & credentials & Hh & Hc & Ha).
    rewrite (get_auth_basic_token _ _ credentials) by (split; assumption).
    now rewrite Ha.
Qed.

Lemma get_auth_basic_throws_iff_witness :
  get_auth_basic "hello" "world"
    (request_with_headers [("authorization", "Basic a")]) fresh
  = Throw InvalidCharacterError.
Proof.
  apply (proj2 (get_auth_basic_throws_iff "hello" "world"
                  (request_with_headers [("authorization", "Basic a")])
                  fresh InvalidCharacterError)).
  split; [reflexivity|]. exists "a". repeat split.
Defined.

(** X3. A user name or a password that holds a colon can never be
    authenticated: whatever the header, the Basic route does not answer
    200, because the decoded credentials must split on the colon into
    exactly two parts. *)
Theorem get_auth_basic_colon
    (username password : string) (req : Request) (resp : Response) (r : Response) :
  has_char ":" username = true \/ has_char ":" password = true ->
  get_auth_basic username password req resp = Normal r ->
  r = basic_unauthorized resp.
Proof.
  intros Hcolon Hr.
  destruct (basic_token_dec req) as [[credentials Htok]|Hno].
  - rewrite (get_auth_basic_token _ _ _ _ _ Htok) in Hr.
    destruct (atob credentials) as [decoded|x]; [|discriminate]. simpl in Hr.
    destruct (split ":" decoded) as [|u [|p [|]]] eqn:E; try congruence.
    destruct (String.eqb_spec u username) as [->|]; [|simpl in Hr; congruence].
    destruct (String.eqb_spec p password) as [->|]; [|simpl in Hr; congruence].
    apply split_two in E. destruct E as (_ & Hu & Hp).
    destruct Hcolon; congruence.
  - rewrite get_auth_basic_no_token in Hr by assumption. congruence.
Qed.

Lemma get_auth_basic_colon_witness :
  basic_unauthorized fresh = basic_unauthorized fresh
  /\ get_auth_basic "hello" "wor:ld"
       (request_with_headers [("authorization", "Basic aGVsbG86d29yOmxk")]) fresh
     = Normal (basic_unauthorized fresh)
  /\ atob "aGVsbG86d29yOmxk" = Normal "hello:wor:ld".
Proof.
  split; [|split; reflexivity].
  apply (get_auth_basic_colon "hello" "wor:ld"
           (request_with_headers [("authorization", "Basic aGVsbG86d29yOmxk")])
           fresh (basic_unauthorized fresh));
    [right; reflexivity | reflexivity].
Defined.

(** ** More on the status route *)

Lemma ToNumber_zeros (k : nat) (code : string) :
  ToNumber (zeros k ++ code) = ToNumber code.
Proof. induction k as [|k IH]; simpl; auto. Qed.

Lemma digits_only_zeros (k : nat) (code : string) :
  digits_only code = true -> digits_only (zeros k ++ code) = true.
Proof.
  intros H. induction k as [|k IH]; simpl; auto.
  unfold digits_only in *. simpl.
  apply andb_true_iff in IH. now destruct IH as [_ ->].
Qed.

(** X4. Leading zeros do not change the answer of the status route: a
    code with any number of zeros in front is answered as the code
    itself. *)
Theorem status_route_leading_zeros
    (k : nat) (code : string) (req : Request) (resp : Response) :
  digits_only code = true ->
  status_route (zeros k ++ code) req resp = status_route code req resp.
Proof.
  intros Hd. unfold status_route, all_status, unary_plus.
  now rewrite (digits_only_zeros k code Hd), Hd, ToNumber_zeros.
Qed.

Lemma status_route_leading_zeros_witness :
  status_route "000418" (request_for "/status/000418" []) fresh
  = status_route "418" (request_for "/status/000418" []) fresh.
Proof.
  apply (status_route_leading_zeros 3 "418"). reflexivity.
Defined.

(** X5. The status route never throws and never assigns a status outside
    [200, 599]: for a code made of digits the response it leaves has a
    status in that range, with a null body or an error body. *)
Theorem status_route_range (code : string) (req : Request) (resp : Response) :
  digits_only code = true ->
  exists r,
    status_route code req resp = Normal r
    /\ (200 <= status r <= 599)%Z
    /\ (res_body r = Some JNull \/ exists message, res_body r = Some (error_body message)).
Proof.
  intros Hd. unfold status_route, all_status, all_status_on, unary_plus.
  rewrite Hd.
  destruct (Z.ltb_spec (ToNumber code) 200) as [Hlo|Hlo]; simpl.
  - eexists. split; [reflexivity|]. split; [unfold status; simpl; lia|]. right. now eexists.
  - destruct (Z.gtb_spec (ToNumber code) 599) as [Hhi|Hhi].
    + eexists. split; [reflexivity|]. split; [unfold status; simpl; lia|]. right. now eexists.
    + eexists. split; [reflexivity|]. split; [unfold status; simpl; lia|]. now left.
Qed.

Lemma status_route_range_witness :
  exists r,
    status_route "99999" (request_for "/status/99999" []) fresh = Normal r
    /\ (200 <= status r <= 599)%Z
    /\ (res_body r = Some JNull \/ exists message, res_body r = Some (error_body message)).
Proof. apply (status_route_range "99999"). reflexivity. Defined.

(** The digits of a decimal number, most significant first, read with an
    accumulator. *)
Lemma ToNumber_string_of_uint (d : Decimal.uint) (acc : Z) :
  fold_left (fun acc c => (10 * acc + (Z.of_N (N_of_ascii c) - 48))%Z)
    (list_ascii_of_string (NilEmpty.string_of_uint d)) acc
  = fold_left (fun acc c => (10 * acc + (Z.of_N (N_of_ascii c) - 48))%Z)
      (list_ascii_of_string (NilEmpty.string_of_uint (Decimal.rev (Decimal.rev d)))) acc.
Proof. now rewrite DecimalFacts.rev_rev. Qed.

Lemma fold_digits_revapp (d d' : Decimal.uint) :
  fold_left (fun acc c => (10 * acc + (Z.of_N (N_of_ascii c) - 48))%Z)
    (list_ascii_of_string (NilEmpty.string_of_uint (Decimal.revapp d d'))) 0%Z
  = fold_left (fun acc c => (10 * acc + (Z.of_N (N_of_ascii c) - 48))%Z)
      (list_ascii_of_string (NilEmpty.string_of_uint d'))
      (Z.of_N (DecimalPos.Unsigned.of_lu d)).
Proof.
  set (step := fun (acc : Z) (c : ascii) =>
                 (10 * acc + (Z.of_N (N_of_ascii c) - 48))%Z).
  revert d'. induction d; intros d'; cbn [Decimal.revapp]; [reflexivity | ..];
    rewrite IHd;
    cbn [NilEmpty.string_of_uint list_ascii_of_string fold_left
         DecimalPos.Unsigned.of_lu];
    f_equal; unfold step;
    match goal with
    | |- context [N_of_ascii ?c] =>
        let v := eval vm_compute in (Z.of_N (N_of_ascii c)) in
        change (Z.of_N (N_of_ascii c)) with v
    end; lia.
Qed.

Lemma digits_string_of_uint (d : Decimal.uint) :
  forallb is_digit (list_ascii_of_string (NilEmpty.string_of_uint d)) = true.
Proof. induction d; simpl; auto. Qed.

(** The decimal text of a natural number is made of digits and has the
    number for its value. *)
Lemma decimal_value_decimal (n : Z) :
  (0 <= n)%Z ->
  digits_only (decimal n) = true /\ decimal_value (decimal n) = n.
Proof.
  intros Hn. unfold decimal, digits_only, decimal_value.
  destruct n as [|p|p]; [split; reflexivity| |lia].
  simpl Z.to_int. unfold NilZero.string_of_int, NilZero.string_of_uint.
  pose proof (DecimalPos.Unsigned.to_uint_nonnil p) as Hnil.
  destruct (Pos.to_uint p) as [|d|d|d|d|d|d|d|d|d|d] eqn:E; [contradiction| ..];
    rewrite <- E; (split;
      [ rewrite digits_string_of_uint, andb_true_r; rewrite E; reflexivity
      | rewrite ToNumber_string_of_uint; unfold Decimal.rev at 1;
        rewrite fold_digits_revapp; simpl;
        rewrite <- DecimalPos.Unsigned.of_uint_alt, DecimalPos.Unsigned.of_to;
        reflexivity ]).
Qed.

(** The decimal text of a natural number up to [2^53] is made of digits
    and reads back as the number. *)
Lemma decimal_reads_back (n : Z) :
  (0 <= n <= MAX_SAFE)%Z ->
  digits_only (Number_toString n) = true /\ ToNumber (Number_toString n) = n.
Proof.
  intros [Hn Hmax]. unfold Number_toString, ToNumber.
  destruct (Z.leb_spec n MAX_SAFE) as [_|]; [|lia].
  destruct (decimal_value_decimal n Hn) as [Hd ->].
  split; [exact Hd | now apply round_binary64_exact].
Qed.

(** X6. Every natural number up to [MAX_SAFE], written in decimal, is
    answered by the status route on its own value: with that status and a
    null body when it lies in [200, 599], and otherwise with 400 and the
    message that names that number. *)
Theorem status_route_decimal (n : Z) (req : Request) (resp : Response) :
  (0 <= n <= MAX_SAFE)%Z ->
  status_route (Number_toString n) req resp
  = Normal (if (200 <=? n)%Z && (n <=? 599)%Z
            then set_body JNull (set_status n resp)
            else set_body (outside_range n) (set_status 400 resp)).
Proof.
  intros Hn. destruct (decimal_reads_back n Hn) as [Hd Hv].
  unfold status_route, all_status, all_status_on, unary_plus.
  rewrite Hd, Hv.
  destruct (Z.ltb_spec n 200), (Z.gtb_spec n 599), (Z.leb_spec 200 n),
    (Z.leb_spec n 599); simpl; try lia; reflexivity.
Qed.

Lemma status_route_decimal_witness :
  status_route "1000" (request_for "/status/1000" []) fresh
  = Normal (set_body (outside_range 1000) (set_status 400 fresh)).
Proof.
  apply (status_route_decimal 1000). vm_compute. split; discriminate.
Defined.

(** ** More on redirects *)

(** [get] returns the value of the first pair of the name. *)
Lemma usp_get_first (name value : string) (before after : URLSearchParams) :
  lacks name before ->
  usp_get name (before ++ (name, value) :: after)%list = Some value.
Proof.
  unfold usp_get, usp_getAll, lacks.
  induction before as [|[k v] before IH]; simpl; intros H.
  - now rewrite String.eqb_refl.
  - inversion H as [|? ? Hk Hrest]; subst. simpl in Hk.
    destruct (String.eqb_spec k name); [contradiction|]. auto.
Qed.

(** X7. The redirect route looks at the first [to] of the query only.
    When its value is empty the answer is the 400 error, even if a later
    [to] has a value; when it is not empty, the [Location] header is that
    value, whatever pairs follow. *)
Theorem get_redirect_first_to
    (req : Request) (resp : Response)
    (before after : URLSearchParams) (target : string) :
  has_query req (before ++ ("to", target) :: after)%list ->
  lacks "to" before ->
  (target = EmptyString -> get_redirect req resp = Normal (missing_to resp))
  /\ (target <> EmptyString ->
      exists r,
        get_redirect req resp = Normal r
        /\ get_header "location" r = Some target).
Proof.
  intros Hq Hlacks.
  assert (Hto : usp_get "to" (searchParams (req_url req)) = Some target).
  { unfold has_query in Hq. rewrite Hq. now apply usp_get_first. }
  unfold get_redirect. rewrite Hto. split.
  - intros ->. reflexivity.
  - intros Hne. destruct target as [|c target]; [contradiction|]. simpl.
    eexists. split; [reflexivity | apply redirect_location].
Qed.

Lemma get_redirect_first_to_witness :
  get_redirect
    (request_for "/redirect" [("a", "b"); ("to", EmptyString); ("to", "/get")])
    fresh
  = Normal (missing_to fresh)
  /\ (exists r,
         get_redirect
           (request_for "/redirect" [("to", "/get"); ("to", "/ip")]) fresh
         = Normal r
         /\ get_header "location" r = Some "/get").
Proof.
  split.
  - destruct (get_redirect_first_to
                (request_for "/redirect"
                   [("a", "b"); ("to", EmptyString); ("to", "/get")])
                fresh [("a", "b")] [("to", "/get")] EmptyString) as [Hempty _];
      [reflexivity | repeat constructor; discriminate |].
    apply Hempty. reflexivity.
  - destruct (get_redirect_first_to
                (request_for "/redirect" [("to", "/get"); ("to", "/ip")])
                fresh [] [("to", "/ip")] "/get") as [_ Hfull];
      [reflexivity | constructor |].
    apply Hfull. discriminate.
Defined.

(** X8. The redirect route never throws, and on a response that has no
    status yet it answers with one of three: 400, 301 or the default
    redirect status. *)
Theorem get_redirect_statuses (req : Request) (resp : Response) :
  res_status resp = None ->
  exists r,
    get_redirect req resp = Normal r
    /\ (status r = 400%Z \/ status r = 301%Z \/ status r = Found).
Proof.
  intros Hst. unfold get_redirect.
  destruct (usp_get "to" (searchParams (req_url req))) as [target|];
    [|eexists; split; [reflexivity | now left]].
  destruct (truthy target); simpl;
    [|eexists; split; [reflexivity | now left]].
  eexists. split; [reflexivity|]. right.
  destruct (is_permanent _).
  - left. now apply redirect_status_kept.
  - right. now apply redirect_status_default.
Qed.

Lemma get_redirect_statuses_witness :
  exists r,
    get_redirect (request_for "/redirect" [("to", "/get"); ("permanent", "1")]) fresh
    = Normal r
    /\ (status r = 400%Z \/ status r = 301%Z \/ status r = Found).
Proof. apply get_redirect_statuses. reflexivity. Defined.

(** ** More on the middlewares *)

Lemma slash_redirect_eq (path : string) :
  slash_redirect path
  = if negb (path =? "/")%string && endsWith path "/"
    then Some (substring 0 (String.length path - 1) path)
    else None.
Proof.
  unfold slash_redirect, trailing_slash. simpl.
  destruct (negb (path =? "/")%string && endsWith path "/"); [|reflexivity].
  apply redirect_location.
Qed.

(** A redirect of the middleware takes one slash off the end. *)
Lemma slash_redirect_some (path target : string) :
  slash_redirect path = Some target ->
  path = target ++ "/" /\ target <> EmptyString.
Proof.
  rewrite slash_redirect_eq.
  destruct (String.eqb_spec path "/") as [->|Hroot]; [discriminate|]. simpl.
  destruct (endsWith path "/") eqn:Hends; [|discriminate].
  destruct (endsWith_char_inv _ _ Hends) as [q ->].
  rewrite length_app_char. simpl. rewrite Nat.sub_0_r, substring_init.
  intros [= <-]. split; [reflexivity|].
  intros ->. now apply Hroot.
Qed.

Lemma slash_redirect_none (path : string) :
  slash_redirect path = None -> path = "/" \/ endsWith path "/" = false.
Proof.
  rewrite slash_redirect_eq.
  destruct (String.eqb_spec path "/"); [now left|]. simpl.
  destruct (endsWith path "/"); [discriminate | now right].
Qed.

Lemma prefix_cons (a b : ascii) (s1 s2 : string) :
  String.prefix (String a s1) (String b s2)
  = if Ascii.eqb a b then String.prefix s1 s2 else false.
Proof.
  cbn [String.prefix]. destruct (ascii_dec a b) as [->|Hne].
  - now rewrite Ascii.eqb_refl.
  - now destruct (Ascii.eqb_spec a b).
Qed.

Lemma prefix_empty (s : string) : String.prefix EmptyString s = true.
Proof. now destruct s. Qed.

(** A path of the same server is redirected to a path of the same
    server. *)
Lemma same_server_target (path target : string) :
  same_server path = true ->
  slash_redirect path = Some target ->
  same_server target = true.
Proof.
  intros Hsame Hred. destruct (slash_redirect_some _ _ Hred) as [-> Hne].
  unfold same_server, startsWith in *.
  destruct target as [|a [|b t]]; [contradiction| |]; cbn [append] in Hsame;
    rewrite !prefix_cons, ?prefix_empty in *.
  - destruct (Ascii.eqb "/" a); [|discriminate Hsame].
    cbn [String.prefix]. reflexivity.
  - exact Hsame.
Qed.

Lemma app_slashes_succ (s : string) (k : nat) :
  (s ++ slashes k) ++ "/" = s ++ slashes (S k).
Proof.
  induction s as [|c s IH]; simpl; [|now rewrite IH].
  induction k; simpl; congruence.
Qed.

Lemma follow_ends (fuel : nat) (path : string) :
  same_server path = true ->
  (String.length path <= fuel)%nat ->
  exists final k,
    follow fuel path = Some final
    /\ slash_redirect final = None
    /\ path = final ++ slashes k.
Proof.
  revert path. induction fuel as [|fuel IH]; intros path Hsame Hlen.
  - destruct path; [discriminate Hsame | simpl in Hlen; lia].
  - simpl. destruct (slash_redirect path) as [target|] eqn:E.
    + rewrite (same_server_target _ _ Hsame E).
      destruct (slash_redirect_some _ _ E) as [Hpath _].
      destruct (IH target) as (final & k & Hf & Hnone & Hk).
      * exact (same_server_target _ _ Hsame E).
      * rewrite Hpath, length_app_char in Hlen. lia.
      * exists final, (S k). split; [exact Hf|]. split; [exact Hnone|].
        rewrite Hpath, Hk at 1. apply app_slashes_succ.
    + exists path, 0%nat. split; [reflexivity|]. split; [exact E|].
      simpl. clear. induction path; simpl; congruence.
Qed.

(** X9. For a path that begins with one slash and not with two, so that
    every redirect target is again a path of the same server, following
    the redirects of the trailing-slash middleware always ends: after at
    most as many redirects as the path has characters the client is at a
    path that is not redirected, which is the first path less some slashes
    at its end and is [/] or does not end with a slash. *)
Theorem trailing_slash_redirects_end (path : string) :
  same_server path = true ->
  exists final k,
    follow (String.length path) path = Some final
    /\ slash_redirect final = None
    /\ path = final ++ slashes k
    /\ (final = "/" \/ endsWith final "/" = false).
Proof.
  intros Hsame.
  destruct (follow_ends (String.length path) path Hsame (Nat.le_refl _))
    as (final & k & Hf & Hnone & Hk).
  exists final, k. repeat split; try assumption.
  now apply slash_redirect_none.
Qed.

Lemma trailing_slash_redirects_end_witness :
  exists final k,
    follow (String.length "/status/200///") "/status/200///" = Some final
    /\ slash_redirect final = None
    /\ "/status/200///" = final ++ slashes k
    /\ (final = "/" \/ endsWith final "/" = false).
Proof. apply (trailing_slash_redirects_end "/status/200///"). reflexivity. Defined.

(** X10. Each redirect of the trailing-slash middleware is to a path that
    is one character shorter: the path less its last slash, never the path
    itself and never the empty path. *)
Theorem trailing_slash_shortens (path target : string) :
  slash_redirect path = Some target ->
  path = target ++ "/"
  /\ String.length path = S (String.length target)
  /\ target <> EmptyString.
Proof.
  intros H. destruct (slash_redirect_some _ _ H) as [-> Hne].
  split; [reflexivity|]. split; [apply length_app_char | exact Hne].
Qed.

Lemma trailing_slash_shortens_witness :
  "/status/200/" = "/status/200" ++ "/"
  /\ String.length "/status/200/" = S (String.length "/status/200")
  /\ "/status/200" <> EmptyString.
Proof. apply (trailing_slash_shortens "/status/200/" "/status/200"). reflexivity. Defined.

Lemma get_header_set_other (name name' value : string) (r : Response) :
  name <> name' ->
  get_header name' (set_header name value r) = get_header name' r.
Proof.
  intros Hne. unfold get_header, set_header. simpl.
  destruct (String.eqb_spec name name') as [|_]; [contradiction|].
  induction (res_headers r) as [|[k v] l IH]; simpl; auto.
  destruct (String.eqb_spec k name) as [->|Hk]; simpl.
  - destruct (String.eqb_spec name name'); [contradiction | exact IH].
  - destruct (String.eqb_spec k name'); auto.
Qed.

(** X11. The timing middleware changes nothing but its header: when the
    rest of the chain completes, the response keeps its status, its body
    and every other header, and carries the elapsed time under
    [x-response-time].  It neither catches nor raises an exception: it
    throws exactly when the rest of the chain throws, and then the same
    exception. *)
Theorem timing_spec
    (elapsed : string) (next : Handler) (req : Request) (resp : Response) :
  (forall r, next req resp = Normal r ->
     exists r',
       timing elapsed next req resp = Normal r'
       /\ status r' = status r
       /\ res_body r' = res_body r
       /\ get_header "x-response-time" r' = Some (elapsed ++ "ms")
       /\ (forall name, name <> "x-response-time" ->
                        get_header name r' = get_header name r))
  /\ (forall e, timing elapsed next req resp = Throw e <-> next req resp = Throw e).
Proof.
  unfold timing. split.
  - intros r ->. simpl. eexists. split; [reflexivity|].
    split; [reflexivity|]. split; [reflexivity|]. split.
    + apply get_header_set_header.
    + intros name Hne. apply get_header_set_other. congruence.
  - intros e. destruct (next req resp); simpl; split; congruence.
Qed.

Lemma timing_spec_witness :
  (exists r',
      timing "0.42" get_ip (request_for "/ip" []) fresh = Normal r'
      /\ status r' = 200%Z
      /\ res_body r' = Some (JObj [("origin", JStr "127.0.0.1")])
      /\ get_header "x-response-time" r' = Some "0.42ms"
      /\ (forall name, name <> "x-response-time" -> get_header name r' = None))
  /\ timing "0.42" (get_auth_basic "hello" "world")
       (request_with_headers [("authorization", "Basic ###")]) fresh
     = Throw InvalidCharacterError.
Proof.
  split.
  - apply (proj1 (timing_spec "0.42" get_ip (request_for "/ip" []) fresh)
             (set_body (JObj [("origin", JStr "127.0.0.1")]) fresh)).
    reflexivity.
  - apply (proj2 (timing_spec "0.42" (get_auth_basic "hello" "world")
                    (request_with_headers [("authorization", "Basic ###")]) fresh)).
    reflexivity.
Defined.

(** X12. In the chain of the application the trailing-slash middleware
    comes before the timing: a request it redirects is answered 301
    without running the routes and without an [x-response-time] header,
    and every other request is answered by the routes under the timing
    middleware. *)
Theorem app_chain
    (elapsed : string) (routes : Handler) (req : Request) (resp : Response) :
  (pathname (req_url req) <> "/" ->
   endsWith (pathname (req_url req)) "/" = true ->
   get_header "x-response-time" resp = None ->
   exists r,
     (forall routes', app elapsed routes' req resp = Normal r)
     /\ status r = 301%Z
     /\ get_header "x-response-time" r = None)
  /\ (pathname (req_url req) = "/" \/ endsWith (pathname (req_url req)) "/" = false ->
      app elapsed routes req resp = timing elapsed routes req resp).
Proof.
  unfold app, trailing_slash. split.
  - intros Hroot Hends Hnone. rewrite Hends.
    destruct (String.eqb_spec (pathname (req_url req)) "/"); [contradiction|].
    simpl. eexists. split; [reflexivity|]. split.
    + now apply redirect_status_kept.
    + unfold redirect. simpl.
      rewrite <- Hnone. unfold get_header at 1. simpl.
      unfold get_header.
      induction (res_headers resp) as [|[k v] l IH]; simpl; auto.
      destruct (String.eqb_spec k "location") as [->|Hk]; simpl; auto.
      destruct (String.eqb_spec k "x-response-time"); auto.
  - intros [-> | ->]; [reflexivity|]. now rewrite andb_false_r.
Qed.

Lemma app_chain_witness :
  exists r,
    (forall routes', app "0.42" routes' (request_for "/get/" []) fresh = Normal r)
    /\ status r = 301%Z
    /\ get_header "x-response-time" r = None.
Proof.
  apply (proj1 (app_chain "0.42" get_get (request_for "/get/" []) fresh));
    [discriminate | reflexivity | reflexivity].
Defined.

(** ** More on the body decoder and the echo routes *)

Lemma bodyInfo_shape (req : Request) :
  exists type value, bodyInfo req = Normal (body_of type value).
Proof.
  unfold bodyInfo, bodyInfo_try.
  destruct (req_body req) as [[[v|]|[f|]|[q|]|[t|]|[b|]|]|]; simpl; eauto.
Qed.

(** X13. The tag [error] is kept for failures: [bodyInfo] returns the
    sentinel exactly when detecting or decoding the body threw, and when
    nothing threw the tag it returns is the type of the body that
    [req.body()] reported. *)
Theorem bodyInfo_error_iff (req : Request) :
  (bodyInfo req = Normal (body_of "error" JNull) <-> exists e, body_fails req e)
  /\ (forall body,
        req_body req = Normal body ->
        (forall e, ~ body_fails req e) ->
        exists value, bodyInfo req = Normal (body_of (body_type body) value)).
Proof.
  unfold bodyInfo, bodyInfo_try, body_fails. split; [split|].
  - destruct (req_body req) as [[[v|e]|[f|e]|[q|e]|[t|e]|[b|e]|]|e]; simpl;
      try discriminate; intros _; exists e; tauto.
  - intros [e He].
    destruct He as [H|[H|[H|[H|[H|H]]]]]; rewrite H; reflexivity.
  - intros body -> Hok.
    destruct body as [[v|e]|[f|e]|[q|e]|[t|e]|[b|e]|]; simpl; eauto;
      exfalso; apply (Hok e); tauto.
Qed.

Lemma bodyInfo_error_iff_witness :
  (exists e,
      body_fails
        (mkRequest "127.0.0.1" (mkURL "http://localhost:3000/post" "/post" []) []
           (Throw (Thrown "TypeError"))) e)
  /\ (exists value,
         bodyInfo
           (mkRequest "127.0.0.1" (mkURL "http://localhost:3000/post" "/post" []) []
              (Normal (BodyText (Normal "hello"))))
         = Normal (body_of "text" value)).
Proof.
  split.
  - apply (proj1 (proj1 (bodyInfo_error_iff
                           (mkRequest "127.0.0.1"
                              (mkURL "http://localhost:3000/post" "/post" []) []
                              (Throw (Thrown "TypeError")))))).
    reflexivity.
  - apply (proj2 (bodyInfo_error_iff
                    (mkRequest "127.0.0.1"
                       (mkURL "http://localhost:3000/post" "/post" []) []
                       (Normal (BodyText (Normal "hello")))))
             (BodyText (Normal "hello")) eq_refl).
    intros e [H|[H|[H|[H|[H|H]]]]]; discriminate H.
Defined.

(** X14. The echo of [/post] is the echo of [/get] and one more field:
    whatever the body of the request does, the handler completes with a
    200 whose object has the decoded body under [body] and, under every
    other key, what [/get] answers for the same request. *)
Theorem post_extends_get (req : Request) (resp : Response) :
  res_status resp = None ->
  exists r g type value,
    post_post req resp = Normal r
    /\ get_get req resp = Normal g
    /\ status r = 200%Z
    /\ status g = 200%Z
    /\ bodyInfo req = Normal (body_of type value)
    /\ response_field "body" r
       = Some (JObj [("type", JStr type); ("value", value)])
    /\ response_field "body" g = None
    /\ (forall key, key <> "body" -> response_field key r = response_field key g).
Proof.
  intros Hst. destruct (bodyInfo_shape req) as (type & value & Hinfo).
  unfold post_post, get_get. rewrite Hinfo. cbn [bind].
  do 2 eexists. exists type, value.
  split; [reflexivity|]. split; [reflexivity|].
  split; [unfold status; simpl; now rewrite Hst|].
  split; [unfold status; simpl; now rewrite Hst|].
  split; [reflexivity|].
  unfold response_field, set_body. cbn [res_body].
  split; [apply (obj_spread_single (basicInfo req) "body")|].
  split; [reflexivity|].
  intros key Hne. unfold obj_spread, body_of. cbn [fold_left fst snd].
  apply obj_get_set_other. congruence.
Qed.

Lemma post_extends_get_witness :
  exists r g type value,
    post_post (request_for "/post" [("a", "1")]) fresh = Normal r
    /\ get_get (request_for "/post" [("a", "1")]) fresh = Normal g
    /\ status r = 200%Z
    /\ status g = 200%Z
    /\ bodyInfo (request_for "/post" [("a", "1")]) = Normal (body_of type value)
    /\ response_field "body" r
       = Some (JObj [("type", JStr type); ("value", value)])
    /\ response_field "body" g = None
    /\ (forall key, key <> "body" -> response_field key r = response_field key g).
Proof. apply post_extends_get. reflexivity. Defined.





(** X16. What [/user-agent] and [/headers] say of the same request: with
    no User-Agent header the first answers [null] and the second has no
    such entry; with one, the first answers its value as it is, and the
    second has the same value when it is not empty and no entry when it
    is. *)
Theorem user_agent_and_headers (req : Request) (resp : Response) :
  exists u h headers,
    get_user_agent req resp = Normal u
    /\ get_headers req resp = Normal h
    /\ response_field "headers" h = Some (JObj headers)
    /\ (headers_get "user-agent" (req_headers req) = None ->
        response_field "user-agent" u = Some JNull
        /\ obj_get "user-agent" headers = None)
    /\ (forall value,
          headers_get "user-agent" (req_headers req) = Some value ->
          response_field "user-agent" u = Some (JStr value)
          /\ (value <> EmptyString ->
              obj_get "user-agent" headers = Some (JStr value))
          /\ (value = EmptyString -> obj_get "user-agent" headers = None)).
Proof.
  assert (Hsingle : forall k v, obj_get k [(k, v)] = Some v)
    by (intros k v; simpl; now rewrite String.eqb_refl).
  unfold get_user_agent, get_headers.
  do 2 eexists. exists (toObject (OfHeaders (req_headers req))).
  split; [reflexivity|]. split; [reflexivity|].
  unfold response_field, set_body. cbn [res_body]. rewrite !Hsingle.
  split; [reflexivity|].
  rewrite toObject_headers_lookup. unfold header_entry. split.
  - intros ->. split; reflexivity.
  - intros value ->. split; [reflexivity|]. split.
    + intros Hne. destruct value; [contradiction | reflexivity].
    + intros ->. reflexivity.
Qed.

Lemma user_agent_and_headers_witness :
  response_field "user-agent"
    (set_body (JObj [("user-agent", or_null (Some EmptyString))]) fresh)
  = Some (JStr EmptyString)
  /\ obj_get "user-agent" (toObject (OfHeaders [("user-agent", EmptyString)])) = None.
Proof.
  destruct (user_agent_and_headers
              (request_with_headers [("user-agent", EmptyString)]) fresh)
    as (u & h & headers & Hu & Hh & Hf & _ & Hsome).
  injection Hu as <-. injection Hh as <-. injection Hf as <-.
  destruct (Hsome EmptyString eq_refl) as (H1 & _ & H2).
  split; [exact H1 | exact (H2 eq_refl)].
Defined.

Lemma obj_set_keys (key : string) (v : JSON) (o : Obj) :
  NoDup (map fst o) ->
  NoDup (map fst (obj_set key v o))
  /\ (forall k, In k (map fst (obj_set key v o)) <-> k = key \/ In k (map fst o)).
Proof.
  induction o as [|[k w] rest IH]; simpl; intros Hnd.
  - split; [repeat constructor; auto|]. intros k. intuition congruence.
  - inversion Hnd as [|? ? Hnotin Hrest]; subst.
    destruct (String.eqb_spec k key) as [->|Hne]; simpl.
    + split; [assumption|]. intros x. intuition congruence.
    + destruct (IH Hrest) as [IHnd IHin]. split.
      * constructor; [|assumption]. rewrite IHin. intros [H|H]; congruence.
      * intros x. rewrite IHin. intuition congruence.
Qed.

Lemma obj_get_in (key : string) (o : Obj) :
  In key (map fst o) <-> obj_get key o <> None.
Proof.
  induction o as [|[k w] rest IH]; simpl.
  - split; [contradiction | congruence].
  - destruct (String.eqb_spec k key) as [->|Hne].
    + split; [discriminate | auto].
    + rewrite <- IH. split; [intros [H|H]; [contradiction | assumption] | auto].
Qed.

Lemma toObject_nodup (original : Original) : NoDup (map fst (toObject original)).
Proof.
  destruct original as [h|p]; unfold toObject.
  - generalize (headers_keys h) as keys. intros keys.
    assert (Hnil : NoDup (map fst (@nil (string * JSON)))) by constructor.
    revert Hnil. generalize (@nil (string * JSON)) as ret.
    induction keys as [|k keys IH]; intros ret Hnd; simpl; auto.
    apply IH. destruct (headers_get k h) as [v|]; [|assumption].
    destruct (truthy v); [now apply obj_set_keys | assumption].
  - generalize (usp_keys p) as keys. intros keys.
    assert (Hnil : NoDup (map fst (@nil (string * JSON)))) by constructor.
    revert Hnil. generalize (@nil (string * JSON)) as ret.
    induction keys as [|k keys IH]; intros ret Hnd; simpl; auto.
    apply IH. now apply obj_set_keys.
Qed.

(** X17. The object [toObject] builds has every key once.  For a query
    string its keys are the names of the pairs; for headers they are the
    names whose joined value is not empty. *)
Theorem toObject_keys (key : string) :
  (forall original, NoDup (map fst (toObject original)))
  /\ (forall p, In key (map fst (toObject (OfParams p))) <-> In key (usp_keys p))
  /\ (forall h, In key (map fst (toObject (OfHeaders h)))
                <-> exists value,
                    headers_get key h = Some value /\ value <> EmptyString).
Proof.
  split; [exact toObject_nodup|]. split.
  - intros p. rewrite obj_get_in, toObject_params_lookup, <- usp_keys_mem.
    destruct (existsb (String.eqb key) (usp_keys p)) eqn:E.
    + apply existsb_exists in E. destruct E as (k & Hin & Hk).
      apply String.eqb_eq in Hk. subst. split; [auto | discriminate].
    + split; [congruence|]. intros Hin. exfalso.
      assert (existsb (String.eqb key) (usp_keys p) = true)
        by (apply existsb_exists; exists key; split;
            [assumption | apply String.eqb_refl]).
      congruence.
  - intros h. rewrite obj_get_in, toObject_headers_lookup. unfold header_entry.
    destruct (headers_get key h) as [v|].
    + destruct v as [|c v]; simpl.
      * split; [congruence|]. intros (value & [= <-] & Hne). contradiction.
      * split; [|discriminate]. intros _. eexists. split; [reflexivity | discriminate].
    + split; [congruence|]. intros (value & H & _). discriminate.
Qed.

(** ** Base64 *)

Section Base64.
Local Open Scope N_scope.

Lemma list_ind3 {A : Type} (P : list A -> Prop) :
  P [] -> (forall a, P [a]) -> (forall a b, P [a; b]) ->
  (forall a b c rest, P rest -> P (a :: b :: c :: rest)) ->
  forall l, P l.
Proof.
  intros H0 H1 H2 H3 l.
  assert (H : P l /\ (forall a, P (a :: l)) /\ (forall a b, P (a :: b :: l))).
  { induction l as [|x l (IH0 & IH1 & IH2)]; auto. }
  apply H.
Qed.

Lemma land_shiftl_small (a b k : N) : b < 2 ^ k -> N.land (N.shiftl a k) b = 0.
Proof.
  intros Hb. apply N.bits_inj. intros i. rewrite N.land_spec, N.bits_0.
  destruct (N.lt_ge_cases i k) as [Hi|Hi].
  - now rewrite N.shiftl_spec_low.
  - rewrite <- (N.mod_small b (2 ^ k)) by assumption.
    rewrite N.mod_pow2_bits_high by assumption. apply andb_false_r.
Qed.

Lemma lor_shiftl_add (a b k : N) :
  b < 2 ^ k -> N.lor (N.shiftl a k) b = a * 2 ^ k + b.
Proof.
  intros Hb.
  rewrite <- N.lxor_lor, <- N.add_nocarry_lxor by now apply land_shiftl_small.
  now rewrite N.shiftl_mul_pow2.
Qed.

(** The three bytes of a group as one number. *)
Lemma group_value (a b c : N) :
  b < 256 -> c < 256 ->
  N.lor (N.lor (N.shiftl a 16) (N.shiftl b 8)) c = a * 65536 + b * 256 + c.
Proof.
  intros Hb Hc.
  assert (E : N.lor (N.shiftl a 16) (N.shiftl b 8) = N.shiftl (a * 256 + b) 8).
  { rewrite lor_shiftl_add; rewrite !N.shiftl_mul_pow2;
      change (2 ^ 16) with 65536; change (2 ^ 8) with 256; lia. }
  rewrite E, lor_shiftl_add by (change (2 ^ 8) with 256; lia).
  change (2 ^ 8) with 256. lia.
Qed.

(** Four sextets as one number. *)
Lemma sextets_value (v1 v2 v3 v4 : N) :
  v2 < 64 -> v3 < 64 -> v4 < 64 ->
  N.lor (N.lor (N.shiftl v1 18) (N.shiftl v2 12)) (N.lor (N.shiftl v3 6) v4)
  = v1 * 262144 + v2 * 4096 + v3 * 64 + v4.
Proof.
  intros H2 H3 H4.
  assert (E : N.lor (N.shiftl v1 18) (N.shiftl v2 12) = N.shiftl (v1 * 64 + v2) 12).
  { rewrite lor_shiftl_add; rewrite !N.shiftl_mul_pow2;
      change (2 ^ 18) with 262144; change (2 ^ 12) with 4096; lia. }
  rewrite E, (lor_shiftl_add v3 v4 6) by (change (2 ^ 6) with 64; lia).
  rewrite lor_shiftl_add by (change (2 ^ 6) with 64; change (2 ^ 12) with 4096; lia).
  change (2 ^ 6) with 64. change (2 ^ 12) with 4096. lia.
Qed.

Lemma recombine (n : N) :
  (n / 262144) * 262144 + ((n / 4096) mod 64) * 4096 + ((n / 64) mod 64) * 64
  + n mod 64 = n.
Proof.
  pose proof (N.Div0.div_mod n 64) as H1.
  pose proof (N.Div0.div_mod (n / 64) 64) as H2.
  pose proof (N.Div0.div_mod (n / 4096) 64) as H3.
  rewrite N.Div0.div_div in H2. change (64 * 64) with 4096 in H2.
  replace (n / 4096 / 64) with (n / 262144) in H3
    by (rewrite N.Div0.div_div; reflexivity).
  lia.
Qed.

Lemma bytes_of_value (a b c : N) :
  a < 256 -> b < 256 -> c < 256 ->
  (a * 65536 + b * 256 + c) / 65536 = a
  /\ ((a * 65536 + b * 256 + c) / 256) mod 256 = b
  /\ (a * 65536 + b * 256 + c) mod 256 = c.
Proof.
  intros Ha Hb Hc.
  assert (H3 : (a * 65536 + b * 256 + c) mod 256 = c).
  { symmetry. apply (N.mod_unique _ _ (a * 256 + b)); lia. }
  assert (H2 : (a * 65536 + b * 256 + c) / 256 = a * 256 + b).
  { symmetry. apply (N.div_unique _ _ _ c); lia. }
  assert (H1 : (a * 65536 + b * 256 + c) / 65536 = a).
  { symmetry. apply (N.div_unique _ _ _ (b * 256 + c)); lia. }
  rewrite H1, H2, H3. repeat split.
  symmetry. apply (N.mod_unique _ _ a); lia.
Qed.

Lemma land_63 (x : N) : N.land x 63 = x mod 64.
Proof. change 63 with (N.ones 6). now rewrite N.land_ones. Qed.

Lemma land_255 (x : N) : N.land x 255 = x mod 256.
Proof. change 255 with (N.ones 8). now rewrite N.land_ones. Qed.

Lemma mod_64_lt (x : N) : x mod 64 < 64.
Proof. apply N.mod_upper_bound. discriminate. Qed.

(** Decoding the four sextets of a group of three bytes gives the bytes. *)
Lemma decode_group (a b c : N) (rest : list N) :
  a < 256 -> b < 256 -> c < 256 ->
  decode_sextets
    (sextet_values [a; b; c] ++ rest)%list
  = ascii_of_N a :: ascii_of_N b :: ascii_of_N c :: decode_sextets rest.
Proof.
  intros Ha Hb Hc. cbn [sextet_values].
  rewrite group_value by assumption.
  set (n := a * 65536 + b * 256 + c).
  rewrite !land_63, !N.shiftr_div_pow2.
  change (2 ^ 18) with 262144. change (2 ^ 12) with 4096.
  change (2 ^ 6) with 64. change (2 ^ 16) with 65536. change (2 ^ 8) with 256.
  cbn [Datatypes.app decode_sextets].
  rewrite sextets_value by apply mod_64_lt.
  rewrite recombine, !land_255, !N.shiftr_div_pow2.
  change (2 ^ 16) with 65536. change (2 ^ 8) with 256. subst n.
  destruct (bytes_of_value a b c Ha Hb Hc) as (-> & -> & ->). reflexivity.
Qed.
End Base64.

Section Base64Tails.
Local Open Scope N_scope.

Lemma two_bytes_of (a b : N) :
  b < 256 -> (a * 256 + b) / 256 = a /\ (a * 256 + b) mod 256 = b.
Proof.
  intros Hb. split; symmetry.
  - apply (N.div_unique _ _ _ b); lia.
  - apply (N.mod_unique _ _ a); lia.
Qed.

Lemma decode_tail2 (a b : N) :
  a < 256 -> b < 256 ->
  decode_sextets (sextet_values [a; b]) = [ascii_of_N a; ascii_of_N b].
Proof.
  intros Ha Hb. cbn [sextet_values].
  replace (N.lor (N.shiftl a 16) (N.shiftl b 8))
    with (N.lor (N.lor (N.shiftl a 16) (N.shiftl b 8)) 0) by apply N.lor_0_r.
  rewrite group_value by lia.
  set (n := a * 65536 + b * 256 + 0).
  rewrite !land_63, !N.shiftr_div_pow2.
  change (2 ^ 18) with 262144. change (2 ^ 12) with 4096. change (2 ^ 6) with 64.
  cbn [decode_sextets].
  assert (H0 : n mod 64 = 0).
  { symmetry. apply (N.mod_unique _ _ (a * 1024 + b * 4)); subst n; lia. }
  assert (E : N.lor (N.lor (N.shiftl (n / 262144) 12) (N.shiftl ((n / 4096) mod 64) 6))
                ((n / 64) mod 64)
              = n / 64).
  { pose proof (mod_64_lt (n / 4096)) as Hlt.
    assert (E1 : N.lor (N.shiftl (n / 262144) 12) (N.shiftl ((n / 4096) mod 64) 6)
                 = N.shiftl (n / 262144 * 64 + (n / 4096) mod 64) 6).
    { rewrite lor_shiftl_add; rewrite !N.shiftl_mul_pow2;
        change (2 ^ 12) with 4096; change (2 ^ 6) with 64; lia. }
    rewrite E1, lor_shiftl_add by (change (2 ^ 6) with 64; apply mod_64_lt).
    change (2 ^ 6) with 64.
    pose proof (recombine n) as Hn. pose proof (N.Div0.div_mod n 64). lia. }
  rewrite E.
  assert (Hq : N.shiftr (n / 64) 2 = a * 256 + b).
  { rewrite N.shiftr_div_pow2, N.Div0.div_div. change (64 * 2 ^ 2) with 256.
    symmetry. apply (N.div_unique _ _ _ 0); subst n; lia. }
  rewrite Hq, land_255, N.shiftr_div_pow2. change (2 ^ 8) with 256.
  destruct (two_bytes_of a b Hb) as [-> ->]. reflexivity.
Qed.

Lemma decode_tail1 (a : N) :
  a < 256 -> decode_sextets (sextet_values [a]) = [ascii_of_N a].
Proof.
  intros Ha. cbn [sextet_values].
  rewrite !land_63, !N.shiftr_div_pow2, N.shiftl_mul_pow2.
  change (2 ^ 18) with 262144. change (2 ^ 12) with 4096. change (2 ^ 16) with 65536.
  cbn [decode_sextets].
  rewrite lor_shiftl_add by (change (2 ^ 6) with 64; apply mod_64_lt).
  change (2 ^ 6) with 64. rewrite N.shiftr_div_pow2. change (2 ^ 4) with 16.
  set (n := a * 65536).
  assert (E : n / 262144 * 64 + (n / 4096) mod 64 = n / 4096).
  { pose proof (N.Div0.div_mod (n / 4096) 64) as H.
    rewrite N.Div0.div_div in H. change (4096 * 64) with 262144 in H. lia. }
  rewrite E, N.Div0.div_div. change (4096 * 16) with 65536.
  replace (n / 65536) with a; [reflexivity|].
  apply (N.div_unique _ _ _ 0); subst n; lia.
Qed.

End Base64Tails.

Section Base64Lists.

Lemma sextet_values_group (a b c : N) (rest : list N) :
  sextet_values (a :: b :: c :: rest)
  = (sextet_values [a; b; c] ++ sextet_values rest)%list.
Proof. reflexivity. Qed.

Lemma decode_sextet_values (bytes : list N) :
  Forall is_byte bytes ->
  decode_sextets (sextet_values bytes) = map ascii_of_N bytes.
Proof.
  induction bytes as [| a | a b | a b c rest IH] using list_ind3; intros Hall.
  - reflexivity.
  - inversion Hall; subst. now apply decode_tail1.
  - inversion Hall as [|? ? Ha Hall']; subst. inversion Hall'; subst.
    now apply decode_tail2.
  - inversion Hall as [|? ? Ha H1]; subst. inversion H1 as [|? ? Hb H2]; subst.
    inversion H2 as [|? ? Hc H3]; subst.
    rewrite sextet_values_group, decode_group by assumption.
    simpl map. now rewrite IH.
Qed.

Lemma shiftr_18_lt (a b c : N) :
  (a < 256)%N -> (b < 256)%N -> (c < 256)%N ->
  (N.shiftr (N.lor (N.lor (N.shiftl a 16) (N.shiftl b 8)) c) 18 < 64)%N.
Proof.
  intros Ha Hb Hc. rewrite group_value, N.shiftr_div_pow2 by assumption.
  change (2 ^ 18)%N with 262144%N. apply N.Div0.div_lt_upper_bound. lia.
Qed.

Lemma land_63_lt (x : N) : (N.land x 63 < 64)%N.
Proof. rewrite land_63. apply mod_64_lt. Qed.

Lemma sextet_values_lt (bytes : list N) :
  Forall is_byte bytes -> Forall (fun v => (v < 64)%N) (sextet_values bytes).
Proof.
  induction bytes as [| a | a b | a b c rest IH] using list_ind3; intros Hall.
  - constructor.
  - inversion Hall; subst. cbn [sextet_values].
    repeat constructor; try apply land_63_lt.
    replace (N.shiftl a 16) with (N.lor (N.lor (N.shiftl a 16) (N.shiftl 0 8)) 0)
      by (rewrite N.shiftl_0_l, !N.lor_0_r; reflexivity).
    apply shiftr_18_lt; [assumption | reflexivity | reflexivity].
  - inversion Hall as [|? ? Ha Hall']; subst. inversion Hall'; subst.
    cbn [sextet_values]. repeat constructor; try apply land_63_lt.
    replace (N.lor (N.shiftl a 16) (N.shiftl b 8))
      with (N.lor (N.lor (N.shiftl a 16) (N.shiftl b 8)) 0) by apply N.lor_0_r.
    apply shiftr_18_lt; [assumption | assumption | reflexivity].
  - inversion Hall as [|? ? Ha H1]; subst. inversion H1 as [|? ? Hb H2]; subst.
    inversion H2 as [|? ? Hc H3]; subst.
    cbn [sextet_values]. repeat constructor; try apply land_63_lt; auto.
    now apply shiftr_18_lt.
Qed.

Lemma encode_bytes_values (bytes : list N) :
  encode_bytes bytes = (map base64_char (sextet_values bytes) ++ padding bytes)%list.
Proof.
  induction bytes as [| a | a b | a b c rest IH] using list_ind3; try reflexivity.
  cbn [encode_bytes sextet_values padding map Datatypes.app]. now rewrite IH.
Qed.

(** The encoding has a length divisible by four; without its padding, a
    length that is not 1 modulo 4. *)
Lemma encode_lengths (bytes : list N) :
  Nat.modulo (List.length (map base64_char (sextet_values bytes) ++ padding bytes)) 4 = 0%nat
  /\ Nat.modulo (List.length (map base64_char (sextet_values bytes))) 4 <> 1%nat.
Proof.
  induction bytes as [| a | a b | a b c rest [IH1 IH2]] using list_ind3;
    try (split; [reflexivity | discriminate]).
  cbn [sextet_values padding map Datatypes.app List.length].
  assert (E : forall n, Nat.modulo (S (S (S (S n)))) 4 = Nat.modulo n 4).
  { intros n. replace (S (S (S (S n)))) with (n + 1 * 4)%nat by lia.
    apply Nat.Div0.mod_add. }
  rewrite !E. auto.
Qed.

Lemma sextet_base64_char (v : N) :
  (v < 64)%N -> sextet (base64_char v) = Some v.
Proof.
  intros Hv.
  assert (Hall : forallb
                   (fun n => match sextet (base64_char (N.of_nat n)) with
                             | Some w => (w =? N.of_nat n)%N
                             | None => false
                             end) (seq 0 64) = true) by (vm_compute; reflexivity).
  rewrite forallb_forall in Hall. specialize (Hall (N.to_nat v)).
  rewrite in_seq, N2Nat.id in Hall.
  destruct (sextet (base64_char v)) as [w|]; [|discriminate Hall; lia].
  f_equal. apply N.eqb_eq. apply Hall. lia.
Qed.

(** A character of the alphabet is neither white space nor the padding. *)
Lemma sextet_some (c : ascii) (v : N) :
  sextet c = Some v ->
  is_ascii_whitespace c = false /\ c <> "="%char /\ Ascii.eqb c " " = false.
Proof.
  destruct c as [[] [] [] [] [] [] [] []]; vm_compute; intros H;
    try discriminate H; repeat split; discriminate.
Qed.

Lemma sextets_base64 (vs : list N) :
  Forall (fun v => (v < 64)%N) vs -> sextets (map base64_char vs) = Some vs.
Proof.
  induction 1 as [|v vs Hv _ IH]; simpl; auto.
  now rewrite sextet_base64_char, IH.
Qed.

Lemma strip_padding_encoded (cs pad : list ascii) :
  Forall (fun c => c <> "="%char) cs ->
  pad = [] \/ pad = ["="%char] \/ pad = ["="%char; "="%char] ->
  Nat.modulo (List.length (cs ++ pad)) 4 = 0%nat ->
  strip_padding (cs ++ pad) = cs.
Proof.
  intros Hcs Hpad Hlen. unfold strip_padding. rewrite Hlen. cbn [Nat.eqb].
  rewrite rev_app_distr.
  assert (Hrev : Forall (fun c => c <> "="%char) (rev cs))
    by (apply Forall_rev; assumption).
  destruct Hpad as [-> | [-> | ->]]; cbn [rev Datatypes.app].
  - rewrite app_nil_r. destruct (rev cs) as [|x r] eqn:E; [reflexivity|].
    inversion Hrev as [|? ? Hx _]; subst.
    destruct x as [[] [] [] [] [] [] [] []]; try reflexivity. now elim Hx.
  - destruct (rev cs) as [|x r] eqn:E.
    + apply (f_equal (@rev ascii)) in E. rewrite rev_involutive in E. now subst.
    + inversion Hrev as [|? ? Hx _]; subst.
      rewrite <- (rev_involutive cs), E.
      destruct x as [[] [] [] [] [] [] [] []]; try reflexivity. now elim Hx.
  - apply rev_involutive.
Qed.

Lemma filter_all {A : Type} (f : A -> bool) (l : list A) :
  Forall (fun x => f x = true) l -> filter f l = l.
Proof. induction 1 as [|x l Hx _ IH]; simpl; [|rewrite Hx, IH]; reflexivity. Qed.

Lemma padding_cases (bytes : list N) :
  padding bytes = [] \/ padding bytes = ["="%char]
  \/ padding bytes = ["="%char; "="%char].
Proof.
  induction bytes as [| a | a b | a b c rest IH] using list_ind3; simpl; auto.
Qed.

Lemma bytes_of_string (data : string) :
  Forall is_byte (map N_of_ascii (list_ascii_of_string data)).
Proof.
  apply Forall_forall. intros n Hin. apply in_map_iff in Hin.
  destruct Hin as (c & <- & _). apply N_ascii_bounded.
Qed.

(** Decoding what [btoa] wrote gives the bytes back. *)
Lemma atob_btoa (data : string) : atob (btoa data) = Normal data.
Proof.
  unfold atob, btoa. rewrite list_ascii_of_string_of_list_ascii.
  set (bytes := map N_of_ascii (list_ascii_of_string data)).
  pose proof (bytes_of_string data) as Hbytes. fold bytes in Hbytes.
  pose proof (sextet_values_lt bytes Hbytes) as Hlt.
  assert (Hchars : Forall (fun c => exists v, sextet c = Some v)
                     (map base64_char (sextet_values bytes))).
  { apply Forall_forall. intros c Hin. apply in_map_iff in Hin.
    destruct Hin as (v & <- & Hv). exists v. apply sextet_base64_char.
    rewrite Forall_forall in Hlt. now apply Hlt. }
  rewrite encode_bytes_values.
  destruct (encode_lengths bytes) as [Hlen4 Hlen1].
  rewrite filter_all.
  - rewrite strip_padding_encoded; [| |apply padding_cases|exact Hlen4].
    + destruct (Nat.eqb_spec
                  (Nat.modulo (List.length (map base64_char (sextet_values bytes))) 4) 1);
        [contradiction|].
      rewrite sextets_base64 by assumption.
      rewrite decode_sextet_values by assumption. unfold bytes.
      rewrite map_map.
      rewrite (map_ext _ (fun c => c)) by apply ascii_N_embedding.
      rewrite map_id. now rewrite string_of_list_ascii_of_string.
    + eapply Forall_impl; [|exact Hchars]. intros c [v Hv].
      now apply sextet_some in Hv.
  - apply Forall_app. split.
    + eapply Forall_impl; [|exact Hchars]. intros c [v Hv].
      apply sextet_some in Hv. destruct Hv as [-> _]. reflexivity.
    + destruct (padding_cases bytes) as [-> | [-> | ->]]; repeat constructor.
Qed.

Lemma has_char_list (c : ascii) (l : list ascii) :
  Forall (fun x => Ascii.eqb x c = false) l ->
  has_char c (string_of_list_ascii l) = false.
Proof. induction 1 as [|x l Hx _ IH]; simpl; [|rewrite Hx, IH]; reflexivity. Qed.

Lemma btoa_no_space (data : string) : has_char " " (btoa data) = false.
Proof.
  unfold btoa. apply has_char_list. rewrite encode_bytes_values.
  set (bytes := map N_of_ascii (list_ascii_of_string data)).
  apply Forall_app. split.
  - apply Forall_forall. intros c Hin. apply in_map_iff in Hin.
    destruct Hin as (v & <- & Hv).
    pose proof (sextet_values_lt bytes (bytes_of_string data)) as Hlt.
    rewrite Forall_forall in Hlt.
    apply (sextet_some _ v). apply sextet_base64_char. now apply Hlt.
  - destruct (padding_cases bytes) as [-> | [-> | ->]]; repeat constructor.
Qed.
End Base64Lists.

(** X18. Base64 round trip: what [btoa] writes for a string of bytes is
    read back by [atob] as that string, without an exception, and holds no
    space. *)
Theorem base64_round_trip (data : string) :
  atob (btoa data) = Normal data /\ has_char " " (btoa data) = false.
Proof. split; [apply atob_btoa | apply btoa_no_space]. Qed.

(** X19. A client that sends [Basic] and [btoa] of the user name, a colon
    and the password, as the benchmark scripts do, is granted access by
    the Basic route of that user and password, provided neither holds a
    colon. *)
Theorem basic_auth_btoa
    (username password : string) (req : Request) (resp : Response) :
  has_char ":" username = false ->
  has_char ":" password = false ->
  headers_get "authorization" (req_headers req)
  = Some ("Basic " ++ btoa (username ++ ":" ++ password)) ->
  exists r,
    get_auth_basic username password req resp = Normal r
    /\ status r = 200%Z
    /\ res_body r
       = Some (JObj [("authorized", JBool true); ("username", JStr username)]).
Proof.
  intros Hu Hp Hh.
  rewrite (get_auth_basic_token _ _ (btoa (username ++ ":" ++ password)))
    by (split; [exact Hh | apply btoa_no_space]).
  rewrite atob_btoa. cbn [bind].
  rewrite (proj2 (split_two ":" _ username password)) by auto.
  rewrite !String.eqb_refl. simpl. eexists. repeat split.
Qed.

Lemma basic_auth_btoa_witness :
  exists r,
    get_auth_basic "hello" "world"
      (request_with_headers [("authorization", "Basic " ++ btoa "hello:world")])
      fresh
    = Normal r
    /\ status r = 200%Z
    /\ res_body r
       = Some (JObj [("authorized", JBool true); ("username", JStr "hello")]).
Proof. apply (basic_auth_btoa "hello" "world"); reflexivity. Defined.

(** X20. A client that sends [Basic] and [btoa] of any other string is
    answered 401 with the Basic challenge: the handler does not throw on a
    token that [btoa] wrote. *)
Theorem basic_auth_btoa_mismatch
    (username password data : string) (req : Request) (resp : Response) :
  data <> username ++ ":" ++ password ->
  headers_get "authorization" (req_headers req) = Some ("Basic " ++ btoa data) ->
  exists r,
    get_auth_basic username password req resp = Normal r
    /\ status r = 401%Z
    /\ get_header "www-authenticate" r = Some basic_challenge
    /\ res_body r = Some (JObj [("authorized", JBool false); ("username", JNull)]).
Proof.
  intros Hne Hh. exists (basic_unauthorized resp). split; [|repeat split].
  rewrite (get_auth_basic_token _ _ (btoa data))
    by (split; [exact Hh | apply btoa_no_space]).
  rewrite atob_btoa. cbn [bind].
  destruct (split ":" data) as [|u [|p [|]]] eqn:E; auto.
  destruct (String.eqb_spec u username) as [->|]; auto.
  destruct (String.eqb_spec p password) as [->|]; auto.
  apply split_two in E. destruct E as (-> & _). now elim Hne.
Qed.

Lemma basic_auth_btoa_mismatch_witness :
  exists r,
    get_auth_basic "hello" "world"
      (request_with_headers [("authorization", "Basic " ++ btoa "no:good")])
      fresh
    = Normal r
    /\ status r = 401%Z
    /\ get_header "www-authenticate" r = Some basic_challenge
    /\ res_body r = Some (JObj [("authorized", JBool false); ("username", JNull)]).
Proof.
  apply (basic_auth_btoa_mismatch "hello" "world" "no:good");
    [discriminate | reflexivity].
Defined.

(** ** The echo of query strings and form bodies *)

Lemma toObject_params_expand (p : URLSearchParams) (key : string) :
  expand (obj_get key (toObject (OfParams p))) = usp_getAll key p.
Proof.
  rewrite toObject_params_lookup.
  destruct (usp_getAll key p) as [|v vs] eqn:E; [reflexivity|].
  cbn [nonempty]. apply expand_scalar_or_array.
Qed.

(** X21. A url-encoded form body is echoed whole: when the body is a form
    that decodes to a list of pairs, [bodyInfo] reports the type [form]
    and an object in which every key re-expands to the values of that key
    in the body, in order; a key that is not in the body has no entry. *)
Theorem bodyInfo_form (req : Request) (p : URLSearchParams) :
  req_body req = Normal (BodyForm (Normal p)) ->
  exists fields,
    bodyInfo req = Normal (body_of "form" (JObj fields))
    /\ (forall key, expand (obj_get key fields) = usp_getAll key p)
    /\ (forall key, usp_getAll key p = [] -> obj_get key fields = None).
Proof.
  intros Hb. exists (toObject (OfParams p)). split; [|split].
  - unfold bodyInfo, bodyInfo_try. rewrite Hb. reflexivity.
  - intros key. apply toObject_params_expand.
  - intros key Hnone. rewrite toObject_params_lookup, Hnone. reflexivity.
Qed.

Lemma bodyInfo_form_witness :
  exists fields,
    bodyInfo
      (mkRequest "127.0.0.1" (mkURL "http://localhost:3000/post" "/post" []) []
         (Normal (BodyForm (Normal [("a", "1"); ("b", EmptyString); ("a", "2")]))))
    = Normal (body_of "form" (JObj fields))
    /\ (forall key,
          expand (obj_get key fields)
          = usp_getAll key [("a", "1"); ("b", EmptyString); ("a", "2")])
    /\ (forall key,
          usp_getAll key [("a", "1"); ("b", EmptyString); ("a", "2")] = [] ->
          obj_get key fields = None).
Proof.
  apply (bodyInfo_form
           (mkRequest "127.0.0.1" (mkURL "http://localhost:3000/post" "/post" []) []
              (Normal (BodyForm (Normal [("a", "1"); ("b", EmptyString); ("a", "2")]))))).
  reflexivity.
Defined.

(** X22. The echo of [/get]: the handler completes with a 200 whose
    object holds the address and the URL of the request as they are, under
    [searchParams] an object in which every key re-expands to the values
    of that key in the query, and under [headers] the joined value of
    every header whose joined value is not empty. *)
Theorem get_echo (req : Request) (resp : Response) :
  res_status resp = None ->
  exists g params headers,
    get_get req resp = Normal g
    /\ status g = 200%Z
    /\ response_field "origin" g = Some (JStr (req_ip req))
    /\ response_field "url" g = Some (JStr (href (req_url req)))
    /\ response_field "searchParams" g = Some (JObj params)
    /\ response_field "headers" g = Some (JObj headers)
    /\ (forall key,
          expand (obj_get key params) = usp_getAll key (searchParams (req_url req)))
    /\ (forall key, obj_get key headers = header_entry (req_headers req) key).
Proof.
  intros Hst. unfold get_get.
  exists (set_body (JObj (basicInfo req)) resp),
    (toObject (OfParams (searchParams (req_url req)))),
    (toObject (OfHeaders (req_headers req))).
  split; [reflexivity|].
  split; [unfold status; simpl; now rewrite Hst|].
  repeat split.
  - intros key. apply toObject_params_expand.
  - intros key. apply toObject_headers_lookup.
Qed.

Lemma get_echo_witness :
  exists g params headers,
    get_get (request_for "/get" [("a", "b"); ("c", "d")]) fresh = Normal g
    /\ status g = 200%Z
    /\ response_field "origin" g = Some (JStr "127.0.0.1")
    /\ response_field "url" g = Some (JStr "http://localhost:3000/get")
    /\ response_field "searchParams" g = Some (JObj params)
    /\ response_field "headers" g = Some (JObj headers)
    /\ (forall key,
          expand (obj_get key params) = usp_getAll key [("a", "b"); ("c", "d")])
    /\ (forall key, obj_get key headers = header_entry [] key).
Proof.
  apply (get_echo (request_for "/get" [("a", "b"); ("c", "d")]) fresh).
  reflexivity.
Defined.


Lemma toObject_keys_witness :
  In "a" (map fst (toObject (OfParams [("a", "1"); ("b", EmptyString); ("a", "2")])))
  /\ NoDup (map fst (toObject (OfParams [("a", "1"); ("b", EmptyString); ("a", "2")]))).
Proof.
  destruct (toObject_keys "a") as (Hnd & Hparams & _). split.
  - apply Hparams. simpl. auto.
  - apply Hnd.
Defined.
